(** * OpenStack-Rabbit-Consumer: the Aquilon registry client and the
      consumer that drives it

    A shallow embedding of [rabbit_consumer/aq_api.py] and of the message
    consumer built on top of it.  Python functions that talk to the outside
    (the [klist] subprocess, the HTTP session, the logger, OpenStack, the
    broker) become computations in a small monad [M] which threads the
    history of effects, records the effects a computation performs, and
    carries Python exceptions as a second kind of outcome. *)

From Stdlib Require Import ZArith Lia Ascii DecimalString.
From stdpp Require Import base list strings gmap.

Local Open Scope Z_scope.

(* ===================================================================== *)
(** ** Python strings *)

Module Py.

(** Truthiness of a [str]: the empty string is falsy. *)
Definition truthy (s : string) : bool :=
  match s with EmptyString => false | String _ _ => true end.

(** [str.isspace] on one character; characters are code points below 256. *)
Definition is_space (c : ascii) : bool :=
  let n := Ascii.nat_of_ascii c in
  ((9 <=? n) && (n <=? 13) || (28 <=? n) && (n <=? 32)
   || (n =? 133) || (n =? 160))%nat.

Fixpoint lstrip (s : string) : string :=
  match s with
  | EmptyString => EmptyString
  | String c s' => if is_space c then lstrip s' else s
  end.

Fixpoint rstrip (s : string) : string :=
  match s with
  | EmptyString => EmptyString
  | String c s' =>
      let r := rstrip s' in
      if is_space c && negb (truthy r) then EmptyString else String c r
  end.

(** [s.strip()] *)
Definition strip (s : string) : string := rstrip (lstrip s).

(** [str(n)] for an [int]. *)
Definition str_of_int (n : Z) : string := NilZero.string_of_int (Z.to_int n).

(** [str(v)] where [v] is a [str] or [None]. *)
Definition str_of_opt (v : option string) : string :=
  match v with Some s => s | None => "None" end.

(** Truthiness of a value that is a [str] or [None]. *)
Definition truthy_opt (v : option string) : bool :=
  match v with Some s => truthy s | None => false end.

(** [sep.join(l)] *)
Fixpoint join (sep : string) (l : list string) : string :=
  match l with
  | [] => ""
  | [x] => x
  | x :: l' => x +:+ sep +:+ join sep l'
  end.

(** [needle in s] *)
Fixpoint contains (needle s : string) : bool :=
  String.prefix needle s
  || match s with
     | EmptyString => false
     | String _ s' => contains needle s'
     end.

(** [s[-1]], for a non-empty [s]. *)
Fixpoint last_char (s : string) : option ascii :=
  match s with
  | EmptyString => None
  | String c EmptyString => Some c
  | String _ s' => last_char s'
  end.

(** [s[:-1]] *)
Fixpoint drop_last (s : string) : string :=
  match s with
  | EmptyString => EmptyString
  | String _ EmptyString => EmptyString
  | String c s' => String c (drop_last s')
  end.

Definition digit_index (c : ascii) : option nat :=
  let n := Ascii.nat_of_ascii c in
  if ((48 <=? n) && (n <=? 57))%nat then Some (n - 48)%nat else None.

(** [fmt.format(a0, a1, ...)] for templates whose replacement fields are
    [{0}] .. [{9}], which is all the module's URL templates use. *)
Fixpoint format (fmt : string) (args : list string) : string :=
  match fmt with
  | String "{"%char (String d (String "}"%char rest)) =>
      match digit_index d with
      | Some i =>
          match rest with
          | EmptyString => default "" (args !! i)
          | _ => default "" (args !! i) +:+ format rest args
          end
      | None => String "{"%char (String d (String "}"%char (format rest args)))
      end
  | String c rest => String c (format rest args)
  | EmptyString => EmptyString
  end.

End Py.

(* ===================================================================== *)
(** ** Effects, exceptions and the monad *)

Inductive level := DEBUG | INFO | ERROR.

Inductive verb := Post | Put | Delete | Get.

(** What the client reads of a [requests.Response]. *)
Record response := Response { status_code : Z; text : string }.

(** A network attachment of an instance, as OpenStack reports it. *)
Record NetworkBinding := Binding {
  mac_address : string;
  ip_address : string;
  fqdn : string;
  interface_name : string;
}.

(** Everything the program does to the outside, with the answer it got. *)
Inductive event :=
| Log (lvl : level) (fmt : string) (args : list string)
| SubprocessCall (argv : list string) (exit_status : Z)
| Request (v : verb) (url : string) (resp : response)
| CheckMachineExists (instance_id : string) (answer : bool)
| GetImage (image_id : string) (tags : gmap string string)
| GetServerNetworks (instance_id : string) (answer : list NetworkBinding)
| UpdateMetadata (instance_id : string) (metadata : gmap string string)
| Ack.

Abbreviation trace := (list event).

Inductive exn :=
| RuntimeError (msg : string)
| ValueError (msg : string)
| IndexError (msg : string)
| ConnectionError (msg : string)
| AquilonError (msg : string).

Inductive outcome (A : Type) :=
| Ret (a : A)
| Raise (e : exn).
Arguments Ret {A} a.
Arguments Raise {A} e.

(** The outside world: each answer may depend on everything that happened
    before the question was asked. *)
Record world := World {
  subprocess : trace -> list string -> Z;
  session : trace -> verb -> string -> response;
  machine_exists : trace -> string -> bool;
  image_tags : trace -> string -> gmap string string;
  server_networks : trace -> string -> list NetworkBinding;
}.

(** A computation reads the world and the history and yields an outcome
    together with the events it performed, oldest first. *)
Definition M (A : Type) : Type := world -> trace -> outcome A * trace.

Definition ret {A} (a : A) : M A := fun _ _ => (Ret a, []).

Definition raise {A} (e : exn) : M A := fun _ _ => (Raise e, []).

Definition bind {A B} (m : M A) (f : A -> M B) : M B :=
  fun w h =>
    match m w h with
    | (Ret a, es) => let '(r, es') := f a w (h ++ es) in (r, es ++ es')
    | (Raise e, es) => (Raise e, es)
    end.

(** [try: m  except Exception as e: handler e] *)
Definition try_except {A} (m : M A) (handler : exn -> M A) : M A :=
  fun w h =>
    match m w h with
    | (Ret a, es) => (Ret a, es)
    | (Raise e, es) => let '(r, es') := handler e w (h ++ es) in (r, es ++ es')
    end.

(** [try: m  finally: fin] *)
Definition try_finally {A} (m : M A) (fin : M unit) : M A :=
  fun w h =>
    let '(r, es) := m w h in
    match fin w (h ++ es) with
    | (Ret _, es') => (r, es ++ es')
    | (Raise e, es') => (Raise e, es ++ es')
    end.

Declare Scope py_scope.
Delimit Scope py_scope with py.
Notation "'let*' x ':=' m 'in' k" := (bind m (fun x => k))
  (at level 10, x name, m at level 100, k at level 200, only parsing) : py_scope.
Notation "m ;; k" := (bind m (fun _ => k))
  (at level 100, k at level 200, right associativity, only parsing) : py_scope.
Local Open Scope py_scope.

Definition emit (e : event) : M unit := fun _ _ => (Ret tt, [e]).

Definition log (lvl : level) (fmt : string) (args : list string) : M unit :=
  emit (Log lvl fmt args).

(** [subprocess.call(argv)] *)
Definition subprocess_call (argv : list string) : M Z :=
  fun w h => let st := subprocess w h argv in (Ret st, [SubprocessCall argv st]).

(** [session.post/put/delete/get(url, auth=HTTPKerberosAuth())]: one call on
    the session, with whatever the mounted adapter does underneath. *)
Definition session_request (v : verb) (url : string) : M response :=
  fun w h => let r := session w h v url in (Ret r, [Request v url r]).

(** The events of a run, and its result. *)
Definition events {A} (m : M A) (w : world) (h : trace) : trace := (m w h).2.
Definition result {A} (m : M A) (w : world) (h : trace) : outcome A := (m w h).1.

(* ===================================================================== *)
(** ** rabbit_consumer/aq_api.py *)

(** The part of [ConsumerConfig] the client reads. *)
Record ConsumerConfig := Config {
  aq_url : string;
  aq_domain : string;
  aq_personality : string;
  aq_archetype : string;
  aq_prefix : string;
}.

(** [AqFields]: what [aq_make] reads of it. *)
Record AqFields := Fields {
  personality : string;
  osversion : string;
  archetype : string;
  osname : string;
}.

(** The payload of the message that [create_machine] reads. *)
Record Payload := MkPayload {
  vcpus : Z;
  memory_mb : Z;
  instance_id : string;
  host : string;
}.

Definition MODEL : string := "vm-openstack".
Definition MAKE_SUFFIX : string := "/host/{0}/command/make".
Definition MANAGE_SUFFIX : string :=
  "/host/{0}/command/manage?hostname={0}&{1}={2}&force=true".
Definition HOST_CHECK_SUFFIX : string := "/host/{0}".
Definition CREATE_MACHINE_SUFFIX : string :=
  "/next_machine/{0}?model={1}&serial={2}&vmhost={3}&cpucount={4}&memory={5}".
Definition ADD_INTERFACE_SUFFIX : string := "/machine/{0}/interface/{1}?mac={2}".
Definition UPDATE_INTERFACE_SUFFIX : string :=
  "/machine/{0}/interface/{1}?boot&default_route".
Definition ADD_INTERFACE_ADDRESS_SUFFIX : string :=
  "/interface_address?machine={0}&interface={1}&ip={2}&fqdn={3}".
Definition DELETE_HOST_SUFFIX : string := "/host/{0}".
Definition DELETE_MACHINE_SUFFIX : string := "/machine/{0}".

Definition KLIST : list string := ["klist"; "-s"].

Definition verify_kerberos_ticket : M bool :=
  log DEBUG "Checking for valid Kerberos Ticket" [] ;;
  let* st := subprocess_call KLIST in
  if st =? 1 then raise (RuntimeError "No shared Kerberos ticket found.")
  else
    log DEBUG "Kerberos ticket success" [] ;;
    ret true.

Definition verb_of_method (method : string) : verb :=
  if String.eqb method "post" then Post
  else if String.eqb method "put" then Put
  else if String.eqb method "delete" then Delete
  else Get.

Definition setup_requests (url method desc : string) : M string :=
  verify_kerberos_ticket ;;
  log DEBUG "%s: %s" [method; url] ;;
  let* response := session_request (verb_of_method method) url in
  if status_code response =? 400 then
    log DEBUG "AQ Error Response: %s" [text response] ;;
    raise (AquilonError (text response))
  else if negb (status_code response =? 200) then
    log ERROR "%s: Failed: %s" [desc; text response] ;;
    log ERROR url [] ;;
    raise (ConnectionError
             ("Failed " +:+ desc +:+ ": "
              +:+ Py.str_of_int (status_code response) +:+ " -"
              +:+ "{response.text}"))
  else
    log DEBUG "Success: %s " [desc] ;;
    log DEBUG "Response: %s" [text response] ;;
    ret (text response).

Definition aq_make (cfg : ConsumerConfig) (hostname : string)
    (aq_fields : AqFields) : M unit :=
  log DEBUG "Attempting to make templates for %s" [hostname] ;;
  let params := [("personality", personality aq_fields);
                 ("osversion", osversion aq_fields);
                 ("archetype", archetype aq_fields);
                 ("osname", osname aq_fields)] in
  let params :=
    filter (fun kv => Py.truthy kv.2 && Py.truthy (Py.strip kv.2) = true) params in
  if negb (Py.truthy hostname) || negb (Py.truthy (Py.strip hostname)) then
    raise (ValueError "An empty hostname cannot be used.")
  else
    let params := map (fun kv => kv.1 +:+ "=" +:+ kv.2) params in
    let url :=
      aq_url cfg +:+ Py.format MAKE_SUFFIX [hostname] +:+ "?"
      +:+ Py.join "&" params in
    let url :=
      if bool_decide (Py.last_char url = Some "?"%char) then Py.drop_last url
      else url in
    setup_requests url "post" "Make Template: " ;;
    ret tt.

Definition aq_manage (cfg : ConsumerConfig)
    (hostname env_type env_name : string) : M unit :=
  log DEBUG "Attempting to manage %s to %s %s" [hostname; env_type; env_name] ;;
  let url :=
    aq_url cfg +:+ Py.format MANAGE_SUFFIX [hostname; env_type; env_name] in
  setup_requests url "post" "Manage Host" ;;
  ret tt.

Definition create_machine (cfg : ConsumerConfig) (message : Payload)
    (hostname prefix : string) : M string :=
  log DEBUG "Attempting to create machine for %s " [hostname] ;;
  let vcpus := vcpus message in
  let memory_mb := memory_mb message in
  let uuid := instance_id message in
  let vmhost := host message in
  let url :=
    aq_url cfg +:+ Py.format CREATE_MACHINE_SUFFIX
      [prefix; MODEL; uuid; vmhost; Py.str_of_int vcpus; Py.str_of_int memory_mb] in
  let* response := setup_requests url "put" "Create Machine" in
  ret response.

Definition delete_machine (cfg : ConsumerConfig) (machinename : string) : M unit :=
  log DEBUG "Attempting to delete machine for %s" [machinename] ;;
  let url := aq_url cfg +:+ Py.format DELETE_MACHINE_SUFFIX [machinename] in
  setup_requests url "delete" "Delete Machine" ;;
  ret tt.

Definition create_host (cfg : ConsumerConfig)
    (hostname machinename firstip osname osversion : string) : M unit :=
  log DEBUG "Attempting to create host for %s " [hostname] ;;
  let default_domain := aq_domain cfg in
  let default_personality := aq_personality cfg in
  let default_archetype := aq_archetype cfg in
  let url := aq_url cfg in
  let url :=
    url +:+ ("/host/" +:+ hostname +:+ "?"
             +:+ "machine=" +:+ machinename
             +:+ "&ip=" +:+ firstip
             +:+ "&archetype=" +:+ default_archetype
             +:+ "&domain=" +:+ default_domain
             +:+ "&personality=" +:+ default_personality
             +:+ "&osname=" +:+ osname
             +:+ "&osversion=" +:+ osversion) in
  log DEBUG url [] ;;
  setup_requests url "put" "Host Create" ;;
  ret tt.

Definition delete_host (cfg : ConsumerConfig) (hostname : string) : M unit :=
  log DEBUG "Attempting to delete host for %s " [hostname] ;;
  let url := aq_url cfg +:+ Py.format DELETE_HOST_SUFFIX [hostname] in
  setup_requests url "delete" "Host Delete" ;;
  ret tt.

Definition add_machine_interface (cfg : ConsumerConfig)
    (machinename macaddr interfacename : string) : M unit :=
  log DEBUG "Attempting to add interface %s to machine %s "
    [interfacename; machinename] ;;
  let url :=
    aq_url cfg +:+ Py.format ADD_INTERFACE_SUFFIX
      [machinename; interfacename; macaddr] in
  setup_requests url "put" "Add Machine Interface" ;;
  ret tt.

Definition add_machine_interface_address (cfg : ConsumerConfig)
    (machinename ipaddr interfacename hostname : string) : M unit :=
  log DEBUG "Attempting to add address ip %s to machine %s "
    [ipaddr; machinename] ;;
  let url :=
    aq_url cfg +:+ Py.format ADD_INTERFACE_ADDRESS_SUFFIX
      [machinename; interfacename; ipaddr; hostname] in
  setup_requests url "put" "Add Machine Interface Address" ;;
  ret tt.

Definition update_machine_interface (cfg : ConsumerConfig)
    (machinename interfacename : string) : M unit :=
  log DEBUG "Attempting to bootable %s " [machinename] ;;
  let url :=
    aq_url cfg +:+ Py.format UPDATE_INTERFACE_SUFFIX [machinename; interfacename] in
  setup_requests url "post" "Update Machine Interface" ;;
  ret tt.

(** [domain] and [sandbox] are a [str] or [None]. *)
Definition set_env (cfg : ConsumerConfig) (aq_details : AqFields)
    (domain : option string) (hostname : string) (sandbox : option string)
    : M unit :=
  (if Py.truthy_opt domain then
     aq_manage cfg hostname "domain" (Py.str_of_opt domain)
   else
     aq_manage cfg hostname "sandbox" (Py.str_of_opt sandbox)) ;;
  aq_make cfg hostname aq_details.

Definition check_host_exists (cfg : ConsumerConfig) (hostname : string) : M bool :=
  log DEBUG "Checking if hostname exists: %s" [hostname] ;;
  let url := aq_url cfg +:+ Py.format HOST_CHECK_SUFFIX [hostname] in
  try_except
    (setup_requests url "get" "Check Host" ;; ret true)
    (fun e =>
       match e with
       | AquilonError msg =>
           if Py.contains ("Host " +:+ hostname +:+ " not found.") msg
           then ret false
           else raise e
       | _ => raise e
       end).

(* ===================================================================== *)
(** ** rabbit_consumer/message_consumer.py *)

Module Consumer.

(** Modelled from the spec: the event type of a decoded message
    ([MessageEventType], section 3: LifecycleEvent.event_type); every type
    but the two supported ones is [other]. *)
Inductive event_type :=
| instance_created
| instance_deleted
| other (name : string).

(** Modelled from the spec: the decoded broker message ([RabbitMessage],
    section 3: LifecycleEvent), with the entries of its metadata that the
    handlers read: the machine name and the domain or sandbox designation,
    each of the latter a [str] or [None]. *)
Record RabbitMessage := Message {
  msg_type : event_type;
  payload : Payload;
  image_id : string;
  machine_name : string;
  domain : option string;
  sandbox : option string;
}.

(** Modelled from the spec: [ImageMetadata] (section 3), as returned for a
    managed image. *)
Record ImageMetadata := Image {
  os_name : string;
  os_version : string;
}.

(** Modelled from the spec: the keys of an image's tag map that carry the
    managed-image marker and the operating system; their spelling is
    configuration. *)
Record ImageTagKeys := TagKeys {
  managed_key : string;
  os_name_key : string;
  os_version_key : string;
}.

(** Modelled from the spec: the cloud platform capability interface
    (section 6) and the broker's [message.ack()]. *)
Definition check_machine_exists (vm : string) : M bool :=
  fun w h => let b := machine_exists w h vm in (Ret b, [CheckMachineExists vm b]).

Definition get_image (image : string) : M (gmap string string) :=
  fun w h => let t := image_tags w h image in (Ret t, [GetImage image t]).

Definition get_server_networks (vm : string) : M (list NetworkBinding) :=
  fun w h => let l := server_networks w h vm in (Ret l, [GetServerNetworks vm l]).

Definition update_metadata (vm : string) (md : gmap string string) : M unit :=
  emit (UpdateMetadata vm md).

Definition ack : M unit := emit Ack.

Section WithConfig.

Variable cfg : ConsumerConfig.
Variable keys : ImageTagKeys.

(** Modelled from the spec: [is_aq_managed_image] (section 4.2,
    isManagedImage): fetch the image's tag map; the image is managed iff
    the map holds the marker with a truthy value. *)
Definition is_aq_managed_image (msg : RabbitMessage) : M (option ImageMetadata) :=
  let* tags := get_image (image_id msg) in
  match tags !! managed_key keys with
  | Some v =>
      if Py.truthy v then
        ret (Some (Image (default "" (tags !! os_name_key keys))
                         (default "" (tags !! os_version_key keys))))
      else ret None
  | None => ret None
  end.

(** Modelled from the spec: [check_machine_valid] (section 4.2,
    checkMachineValid): existence is checked first, and the image only
    for an instance that exists. *)
Definition check_machine_valid (msg : RabbitMessage) : M bool :=
  let* present := check_machine_exists (instance_id (payload msg)) in
  if negb present then
    log INFO "Machine has been deleted from OpenStack: %s"
      [instance_id (payload msg)] ;;
    ret false
  else
    let* image := is_aq_managed_image msg in
    match image with
    | None => ret false
    | Some _ => ret true
    end.

(** Modelled from the spec: the orchestrator's deletion of a machine
    record (sections 4.3 and 7): one [deleteMachine]; a domain error
    whose text says "not found" counts as success, any other error
    propagates. *)
Definition is_not_found (msg : string) : bool := Py.contains "not found" msg.

Definition delete_machine_record (name : string) : M unit :=
  try_except (delete_machine cfg name)
    (fun e =>
       match e with
       | AquilonError msg => if is_not_found msg then ret tt else raise e
       | _ => raise e
       end).

(** Modelled from the spec: step 4 of the create saga: every binding's
    interface and address are attached, in the order of the list. *)
Fixpoint add_machine_nics (machinename : string)
    (bindings : list NetworkBinding) : M unit :=
  match bindings with
  | [] => ret tt
  | b :: rest =>
      add_machine_interface cfg machinename (mac_address b) (interface_name b) ;;
      add_machine_interface_address cfg machinename
        (ip_address b) (interface_name b) (fqdn b) ;;
      add_machine_nics machinename rest
  end.

(** Modelled from the spec: step 8 of the create saga
    ([add_hostname_to_metadata]): the hostnames and the success marker
    are written only for an instance the cloud platform still lists. *)
Definition hostnames_metadata (bindings : list NetworkBinding)
    : gmap string string :=
  <["HOSTNAMES" := Py.join "," (fqdn <$> bindings)]>
    (<["AQ_STATUS" := "SUCCESS"]> ∅).

Definition add_hostname_to_metadata (msg : RabbitMessage)
    (bindings : list NetworkBinding) : M unit :=
  let* present := check_machine_exists (instance_id (payload msg)) in
  if negb present then ret tt
  else update_metadata (instance_id (payload msg)) (hostnames_metadata bindings).

(** Modelled from the spec: the fields for makeTemplates (step 7): the
    operating system comes from the image, personality and archetype are
    the configured defaults. *)
Definition aq_fields_of (image : ImageMetadata) : AqFields :=
  Fields (aq_personality cfg) (os_version image) (aq_archetype cfg) (os_name image).

(** Modelled from the spec: steps 2 to 7 of the create saga (section
    4.3), the registry's part: any stale machine record is deleted, the
    machine is created, every binding attached, the first binding's
    interface marked bootable, the host created, managed and made. *)
Definition register (msg : RabbitMessage) (image : ImageMetadata)
    (first : NetworkBinding) (bindings : list NetworkBinding) : M unit :=
  delete_machine_record (machine_name msg) ;;
  let* machinename :=
    create_machine cfg (payload msg) (fqdn first) (aq_prefix cfg) in
  add_machine_nics machinename bindings ;;
  update_machine_interface cfg machinename (interface_name first) ;;
  create_host cfg (fqdn first) machinename (ip_address first)
    (os_name image) (os_version image) ;;
  set_env cfg (aq_fields_of image) (domain msg) (fqdn first) (sandbox msg).

(** Modelled from the spec: the create saga (section 4.3) for an event
    that passed validation.  The first binding is the primary one;
    without any binding there is no primary interface and the event
    fails as invalid input before the registry is touched. *)
Definition create_saga (msg : RabbitMessage) : M unit :=
  let* image := is_aq_managed_image msg in
  match image with
  | None => raise (ValueError "The image is not managed.")
  | Some image =>
      let* bindings := get_server_networks (instance_id (payload msg)) in
      match bindings with
      | [] => raise (IndexError "list index out of range")
      | first :: _ =>
          register msg image first bindings ;;
          add_hostname_to_metadata msg bindings
      end
  end.

(** Modelled from the spec: [handle_create_machine] (section 4.3, step
    1): an event the gate rejects stops here. *)
Definition handle_create_machine (msg : RabbitMessage) : M unit :=
  let* valid := check_machine_valid msg in
  if negb valid then ret tt
  else create_saga msg.

(** Modelled from the spec: [handle_machine_delete] (section 4.3, delete
    events). *)
Definition handle_machine_delete (msg : RabbitMessage) : M unit :=
  delete_machine_record (machine_name msg).

(** Modelled from the spec: [consume] routes a supported event to its
    handler. *)
Definition consume (msg : RabbitMessage) : M unit :=
  match msg_type msg with
  | instance_created => handle_create_machine msg
  | instance_deleted => handle_machine_delete msg
  | other _ => ret tt
  end.

Definition supported (t : event_type) : bool :=
  match t with
  | instance_created | instance_deleted => true
  | other _ => false
  end.

Definition event_type_name (t : event_type) : string :=
  match t with
  | instance_created => "instance_created"
  | instance_deleted => "instance_deleted"
  | other name => name
  end.

(** Modelled from the spec: [on_message] (section 4.4): an unsupported
    event is logged and acknowledged; a supported one is handled and the
    message acknowledged on the way out, whether or not the handler
    raised; what the handler raised is logged and keeps propagating. *)
Definition on_message (msg : RabbitMessage) : M unit :=
  if negb (supported (msg_type msg)) then
    log INFO "Ignoring event_type: %s" [event_type_name (msg_type msg)] ;;
    ack
  else
    try_finally
      (try_except (consume msg)
         (fun e => log ERROR "Failed to handle the message" [] ;; raise e))
      ack.

End WithConfig.

End Consumer.

(* ===================================================================== *)
(** ** Observing a run *)

Local Open Scope py_scope.

Definition is_request (e : event) : bool :=
  match e with Request _ _ _ => true | _ => false end.

Definition is_klist (e : event) : bool :=
  match e with SubprocessCall _ _ => true | _ => false end.

Definition is_log (e : event) : bool :=
  match e with Log _ _ _ => true | _ => false end.

Definition is_ack (e : event) : bool :=
  match e with Ack => true | _ => false end.

(** The HTTP requests of a trace, and its ticket checks. *)
Definition requests (es : trace) : trace := List.filter is_request es.
Definition ticket_checks (es : trace) : trace := List.filter is_klist es.

(** The first thing [verify_kerberos_ticket] does. *)
Definition CHECKING : event := Log DEBUG "Checking for valid Kerberos Ticket" [].

(** The exit status [klist -s] gives when the ticket is checked at history [h]. *)
Definition klist_status (w : world) (h : trace) : Z :=
  subprocess w (h ++ [CHECKING]) KLIST.

(** What [setup_requests] has done when it issues its request. *)
Definition before_request (st : Z) (method url : string) : trace :=
  [CHECKING; SubprocessCall KLIST st; Log DEBUG "Kerberos ticket success" [];
   Log DEBUG "%s: %s" [method; url]].

(** The response the session gives to the request of [setup_requests]. *)
Definition response_at (w : world) (h : trace) (method url : string) : response :=
  session w (h ++ before_request (klist_status w h) method url)
    (verb_of_method method) url.

(** The message of the [ConnectionError] that [setup_requests] raises. *)
Definition connection_error_message (desc : string) (r : response) : string :=
  "Failed " +:+ desc +:+ ": " +:+ Py.str_of_int (status_code r)
  +:+ " -{response.text}".

(** The calls a run makes to its collaborators, as they show in a trace:
    every function of the registry client logs its own line on entry, and
    the cloud platform and the broker are reached through one event each. *)
Inductive step :=
| SMake | SManage | SCreateMachine | SDeleteMachine | SCreateHost
| SDeleteHost | SAddInterface | SAddInterfaceAddress | SUpdateInterface
| SCheckHost
| SCheckExists | SGetImage | SGetNetworks | SUpdateMetadata | SAck.

Global Instance step_eq_dec : EqDecision step.
Proof. solve_decision. Defined.

Definition step_of_format (fmt : string) : option step :=
  if String.eqb fmt "Attempting to make templates for %s" then Some SMake
  else if String.eqb fmt "Attempting to manage %s to %s %s" then Some SManage
  else if String.eqb fmt "Attempting to create machine for %s " then Some SCreateMachine
  else if String.eqb fmt "Attempting to delete machine for %s" then Some SDeleteMachine
  else if String.eqb fmt "Attempting to create host for %s " then Some SCreateHost
  else if String.eqb fmt "Attempting to delete host for %s " then Some SDeleteHost
  else if String.eqb fmt "Attempting to add interface %s to machine %s " then Some SAddInterface
  else if String.eqb fmt "Attempting to add address ip %s to machine %s " then Some SAddInterfaceAddress
  else if String.eqb fmt "Attempting to bootable %s " then Some SUpdateInterface
  else if String.eqb fmt "Checking if hostname exists: %s" then Some SCheckHost
  else None.

Definition step_of (e : event) : option step :=
  match e with
  | Log DEBUG fmt (_ :: _) => step_of_format fmt
  | CheckMachineExists _ _ => Some SCheckExists
  | GetImage _ _ => Some SGetImage
  | GetServerNetworks _ _ => Some SGetNetworks
  | UpdateMetadata _ _ => Some SUpdateMetadata
  | Ack => Some SAck
  | _ => None
  end.

Definition steps (es : trace) : list step := omap step_of es.

Definition is_attach (s : step) : bool :=
  match s with SAddInterface | SAddInterfaceAddress => true | _ => false end.

(** The registry operations with their arguments, and what they return:
    [None], a [str] or a [bool]. *)
Inductive aq_call :=
| Make (hostname : string) (aq_fields : AqFields)
| Manage (hostname env_type env_name : string)
| CreateMachine (message : Payload) (hostname prefix : string)
| DeleteMachine (machinename : string)
| CreateHost (hostname machinename firstip osname osversion : string)
| DeleteHost (hostname : string)
| AddInterface (machinename macaddr interfacename : string)
| AddInterfaceAddress (machinename ipaddr interfacename hostname : string)
| UpdateInterface (machinename interfacename : string)
| CheckHost (hostname : string).

Inductive value := VNone | VStr (s : string) | VBool (b : bool).

Definition call (cfg : ConsumerConfig) (c : aq_call) : M value :=
  match c with
  | Make hostname aq_fields => aq_make cfg hostname aq_fields ;; ret VNone
  | Manage hostname env_type env_name =>
      aq_manage cfg hostname env_type env_name ;; ret VNone
  | CreateMachine message hostname prefix =>
      let* r := create_machine cfg message hostname prefix in ret (VStr r)
  | DeleteMachine machinename => delete_machine cfg machinename ;; ret VNone
  | CreateHost hostname machinename firstip osname osversion =>
      create_host cfg hostname machinename firstip osname osversion ;; ret VNone
  | DeleteHost hostname => delete_host cfg hostname ;; ret VNone
  | AddInterface machinename macaddr interfacename =>
      add_machine_interface cfg machinename macaddr interfacename ;; ret VNone
  | AddInterfaceAddress machinename ipaddr interfacename hostname =>
      add_machine_interface_address cfg machinename ipaddr interfacename hostname ;;
      ret VNone
  | UpdateInterface machinename interfacename =>
      update_machine_interface cfg machinename interfacename ;; ret VNone
  | CheckHost hostname =>
      let* b := check_host_exists cfg hostname in ret (VBool b)
  end.

(** The precondition failure of the client: no Kerberos ticket. *)
Definition NO_TICKET : exn := RuntimeError "No shared Kerberos ticket found.".


(** [hostname] is blank for [aq_make]: empty, or nothing but whitespace. *)
Definition blank (hostname : string) : bool :=
  negb (Py.truthy hostname) || negb (Py.truthy (Py.strip hostname)).

(** The outcome of a function that returns [None] after a computation. *)
Definition unit_result {A} (o : outcome A) : outcome unit :=
  match o with Ret _ => Ret tt | Raise e => Raise e end.

(** [m] logs [logs], runs [setup_requests url method desc], does nothing
    else to the outside, and turns the outcome of the request into its own
    with [k]. *)
Definition performs {A} (m : M A) (logs : trace) (url method desc : string)
    (k : outcome string -> outcome A) : Prop :=
  forall w h,
    m w h = (k (result (setup_requests url method desc) w (h ++ logs)),
             logs ++ events (setup_requests url method desc) w (h ++ logs)).

(** The URL [aq_make] requests for a hostname that is not blank. *)
Definition make_url (cfg : ConsumerConfig) (hostname : string)
    (aq_fields : AqFields) : string :=
  let params :=
    filter (fun kv => Py.truthy kv.2 && Py.truthy (Py.strip kv.2) = true)
      [("personality", personality aq_fields); ("osversion", osversion aq_fields);
       ("archetype", archetype aq_fields); ("osname", osname aq_fields)] in
  let url :=
    aq_url cfg +:+ Py.format MAKE_SUFFIX [hostname] +:+ "?"
    +:+ Py.join "&" (map (fun kv => kv.1 +:+ "=" +:+ kv.2) params) in
  if bool_decide (Py.last_char url = Some "?"%char) then Py.drop_last url else url.

(** How [check_host_exists] answers from the outcome of its request. *)
Definition host_check_result (hostname : string) (o : outcome string) : outcome bool :=
  match o with
  | Ret _ => Ret true
  | Raise (AquilonError msg) =>
      if Py.contains ("Host " +:+ hostname +:+ " not found.") msg then Ret false
      else Raise (AquilonError msg)
  | Raise e => Raise e
  end.

Definition map_outcome {A B} (g : A -> B) (o : outcome A) : outcome B :=
  match o with Ret a => Ret (g a) | Raise e => Raise e end.

(** The events the registry client itself produces. *)
Definition is_client_event (e : event) : bool := is_log e || is_klist e || is_request e.




(** The URL of the manage request. *)
Definition manage_url (cfg : ConsumerConfig) (hostname env_type env_name : string)
    : string :=
  aq_url cfg +:+ "/host/" +:+ hostname +:+ "/command/manage?hostname="
  +:+ hostname +:+ "&" +:+ env_type +:+ "=" +:+ env_name +:+ "&force=true".

(** A computation whose calls are an initial part of [L], and all of [L]
    when it returns. *)
Definition runs_within {A} (m : M A) (L : list step) : Prop :=
  forall w h,
    steps (events m w h) `prefix_of` L
    /\ (forall a, result m w h = Ret a -> steps (events m w h) = L).

(** A computation whose calls are an initial part of [L]. *)
Definition within {A} (m : M A) (L : list step) : Prop :=
  forall w h, steps (events m w h) `prefix_of` L.

(** The calls of the create saga, in their order, for the bindings [bs]. *)
Definition attach_steps (bs : list NetworkBinding) : list step :=
  flat_map (fun _ => [SAddInterface; SAddInterfaceAddress]) bs.

Definition register_steps (bs : list NetworkBinding) : list step :=
  [SDeleteMachine; SCreateMachine] ++ attach_steps bs
  ++ [SUpdateInterface; SCreateHost; SManage; SMake].

Definition create_steps (bs : list NetworkBinding) : list step :=
  [SCheckExists; SGetImage; SGetImage; SGetNetworks] ++ register_steps bs
  ++ [SCheckExists; SUpdateMetadata].

(** How the deletion of a machine record answers from the outcome of
    [delete_machine]. *)
Definition delete_record_result (o : outcome unit) : outcome unit :=
  match o with
  | Raise (AquilonError msg) =>
      if Consumer.is_not_found msg then Ret tt else Raise (AquilonError msg)
  | _ => o
  end.

(** What [check_machine_valid] logs for an instance that is gone. *)
Definition GONE (vm : string) : event :=
  Log INFO "Machine has been deleted from OpenStack: %s" [vm].

(* ===================================================================== *)
(** ** Sample inputs *)

Module Sample.

Definition cfg : ConsumerConfig :=
  Config "https://aq.example" "prod" "nubesvms" "ral-tier1" "vm-openstack-Prod-".

Definition keys : Consumer.ImageTagKeys := Consumer.TagKeys "AQ_OS" "AQ_OS" "AQ_OSVERSION".

Definition binding : NetworkBinding :=
  Binding "aa:bb" "10.0.0.5" "vm1.example.com" "eth0".

Definition binding2 : NetworkBinding :=
  Binding "cc:dd" "10.0.0.6" "vm2.example.com" "eth1".

Definition tags : gmap string string :=
  <["AQ_OS" := "rocky"]> (<["AQ_OSVERSION" := "8"]> ∅).

(** A world with a ticket whose [klist] status is [st], a registry that
    answers every request with [r], and a cloud platform that lists every
    instance with the managed image and the bindings [bs]. *)
Definition steady (st : Z) (r : response) (bs : list NetworkBinding) : world :=
  World (fun _ _ => st) (fun _ _ _ => r) (fun _ _ => true)
        (fun _ _ => tags) (fun _ _ => bs).

Definition ok : response := Response 200 "mXYZ".

Definition good : world := steady 0 ok [binding].

(** The same, but the cloud platform lists no instance. *)
Definition vanished : world :=
  World (fun _ _ => 0) (fun _ _ _ => ok) (fun _ _ => false)
        (fun _ _ => tags) (fun _ _ => [binding]).

(** The same, but the instance is listed only until the first question
    about it has been answered. *)
Definition vanishing : world :=
  World (fun _ _ => 0) (fun _ _ _ => ok)
        (fun h _ => match h with [] => true | _ => false end)
        (fun _ _ => tags) (fun _ _ => [binding]).

Definition fields : AqFields := Fields "nubesvms" "8" "ral-tier1" "rocky".

Definition create_event : Consumer.RabbitMessage :=
  Consumer.Message Consumer.instance_created
    (MkPayload 4 8192 "abc-123" "hv01") "img-1" "AQ-HOST1" (Some "prod") None.

Definition delete_event : Consumer.RabbitMessage :=
  Consumer.Message Consumer.instance_deleted
    (MkPayload 4 8192 "abc-123" "hv01") "img-1" "AQ-HOST1" None None.

End Sample.

(* ===================================================================== *)
(** ** More observations on the client *)

(** [s] holds nothing but whitespace; the empty string does. *)
Fixpoint all_space (s : string) : bool :=
  match s with
  | EmptyString => true
  | String c s' => Py.is_space c && all_space s'
  end.

(** The parameters [aq_make] reads off its fields, in the order of its
    dictionary, and the query string it joins from those it keeps. *)
Definition make_params (aq_fields : AqFields) : list (string * string) :=
  [("personality", personality aq_fields); ("osversion", osversion aq_fields);
   ("archetype", archetype aq_fields); ("osname", osname aq_fields)].

Definition make_query (aq_fields : AqFields) : string :=
  Py.join "&"
    (map (fun kv => kv.1 +:+ "=" +:+ kv.2)
       (List.filter (fun kv => negb (all_space kv.2)) (make_params aq_fields))).

(** The URL of [aq_make] without its query string. *)
Definition make_base (cfg : ConsumerConfig) (hostname : string) : string :=
  aq_url cfg +:+ "/host/" +:+ hostname +:+ "/command/make".

(** The HTTP verb of each operation of the registry's REST interface. *)
Definition call_verb (c : aq_call) : verb :=
  match c with
  | Make _ _ | Manage _ _ _ | UpdateInterface _ _ => Post
  | CreateMachine _ _ _ | CreateHost _ _ _ _ _
  | AddInterface _ _ _ | AddInterfaceAddress _ _ _ _ => Put
  | DeleteMachine _ | DeleteHost _ => Delete
  | CheckHost _ => Get
  end.

(** What an operation returns from the body of a successful response. *)
Definition call_value (c : aq_call) (body : string) : value :=
  match c with
  | CreateMachine _ _ _ => VStr body
  | CheckHost _ => VBool true
  | _ => VNone
  end.

Definition is_check_host (c : aq_call) : bool :=
  match c with CheckHost _ => true | _ => false end.

(** The records a trace holds at level ERROR. *)
Definition is_error_log (e : event) : bool :=
  match e with Log ERROR _ _ => true | _ => false end.

Definition error_logs (es : trace) : trace := List.filter is_error_log es.

(** [k] hands the outcome of the request on as the outcome of the operation
    [c]: a body becomes the value the operation returns, an exception stays
    what it is, except that the host check may answer a domain error. *)
Definition relays (c : aq_call) (k : outcome string -> outcome value) : Prop :=
  (forall body, k (Ret body) = Ret (call_value c body))
  /\ (forall e, (forall msg, e <> AquilonError msg) -> k (Raise e) = Raise e)
  /\ (forall msg,
        k (Raise (AquilonError msg)) = Raise (AquilonError msg)
        \/ (is_check_host c = true /\ k (Raise (AquilonError msg)) = Ret (VBool false))).

(* ===================================================================== *)
(** ** Running computations *)

Lemma bind_run {A B} (m : M A) (f : A -> M B) w h :
  bind m f w h =
    match result m w h with
    | Ret a => (result (f a) w (h ++ events m w h),
                events m w h ++ events (f a) w (h ++ events m w h))
    | Raise e => (Raise e, events m w h)
    end.
Proof.
  unfold bind, result, events. destruct (m w h) as [[a|e] es]; simpl; [|done].
  by destruct (f a w (h ++ es)).
Qed.

Lemma events_bind {A B} (m : M A) (f : A -> M B) w h :
  events (bind m f) w h =
    events m w h ++
    match result m w h with
    | Ret a => events (f a) w (h ++ events m w h)
    | Raise _ => []
    end.
Proof.
  unfold events at 1. rewrite bind_run.
  destruct (result m w h); simpl; [done|]. by rewrite app_nil_r.
Qed.

Lemma result_bind {A B} (m : M A) (f : A -> M B) w h :
  result (bind m f) w h =
    match result m w h with
    | Ret a => result (f a) w (h ++ events m w h)
    | Raise e => Raise e
    end.
Proof. unfold result at 1. rewrite bind_run. by destruct (result m w h). Qed.

Lemma run_eq {A} (m : M A) w h : m w h = (result m w h, events m w h).
Proof. unfold result, events. by destruct (m w h). Qed.

Lemma events_emit e w h : events (emit e) w h = [e].
Proof. done. Qed.

Lemma result_emit e w h : result (emit e) w h = Ret tt.
Proof. done. Qed.

Lemma verify_kerberos_ticket_run w h :
  verify_kerberos_ticket w h =
    if klist_status w h =? 1 then
      (Raise NO_TICKET, [CHECKING; SubprocessCall KLIST (klist_status w h)])
    else
      (Ret true,
       [CHECKING; SubprocessCall KLIST (klist_status w h);
        Log DEBUG "Kerberos ticket success" []]).
Proof.
  unfold verify_kerberos_ticket, bind, log, emit, subprocess_call, klist_status,
    raise, ret; simpl.
  by destruct (_ =? 1).
Qed.

Lemma setup_requests_run url method desc w h :
  setup_requests url method desc w h =
    let st := klist_status w h in
    let r := response_at w h method url in
    let rq := Request (verb_of_method method) url r in
    if st =? 1 then (Raise NO_TICKET, [CHECKING; SubprocessCall KLIST st])
    else if status_code r =? 400 then
      (Raise (AquilonError (text r)),
       before_request st method url
         ++ [rq; Log DEBUG "AQ Error Response: %s" [text r]])
    else if status_code r =? 200 then
      (Ret (text r),
       before_request st method url
         ++ [rq; Log DEBUG "Success: %s " [desc];
             Log DEBUG "Response: %s" [text r]])
    else
      (Raise (ConnectionError (connection_error_message desc r)),
       before_request st method url
         ++ [rq; Log ERROR "%s: Failed: %s" [desc; text r]; Log ERROR url []]).
Proof.
  unfold setup_requests. rewrite bind_run.
  unfold result, events. rewrite verify_kerberos_ticket_run.
  cbv zeta. destruct (klist_status w h =? 1) eqn:Hst; simpl; [done|].
  unfold bind, log, emit, session_request, raise, ret, response_at,
    before_request; simpl.
  rewrite <- !app_assoc; simpl.
  destruct (status_code _ =? 400); simpl; [done|].
  by destruct (status_code _ =? 200).
Qed.

(* ===================================================================== *)
(** ** The ticket check and the classification of responses *)

Lemma requests_app es1 es2 : requests (es1 ++ es2) = requests es1 ++ requests es2.
Proof. apply List.filter_app. Qed.

Lemma ticket_checks_app es1 es2 :
  ticket_checks (es1 ++ es2) = ticket_checks es1 ++ ticket_checks es2.
Proof. apply List.filter_app. Qed.

(** Whatever the ticket check says, [setup_requests] runs it once, and it
    issues its one request exactly when the check did not exit with 1. *)
Lemma setup_requests_requests url method desc w h :
  requests (events (setup_requests url method desc) w h) =
    if klist_status w h =? 1 then []
    else [Request (verb_of_method method) url (response_at w h method url)].
Proof.
  unfold events. rewrite setup_requests_run. cbv zeta.
  destruct (_ =? 1); [done|].
  destruct (_ =? 400); [done|]. by destruct (_ =? 200).
Qed.

Lemma setup_requests_ticket_checks url method desc w h :
  ticket_checks (events (setup_requests url method desc) w h) =
    [SubprocessCall KLIST (klist_status w h)].
Proof.
  unfold events. rewrite setup_requests_run. cbv zeta.
  destruct (_ =? 1); [done|].
  destruct (_ =? 400); [done|]. by destruct (_ =? 200).
Qed.

(** C9: [verify_kerberos_ticket] runs [klist -s] once and raises exactly when
    its exit status is 1; with any other status, 2 or a negative one
    included, it returns [True] and [setup_requests] goes on to issue its
    request. *)
Theorem verify_kerberos_ticket_raises_only_on_status_1 w h :
  ticket_checks (events verify_kerberos_ticket w h)
    = [SubprocessCall KLIST (klist_status w h)]
  /\ (result verify_kerberos_ticket w h = Raise NO_TICKET <-> klist_status w h = 1)
  /\ (result verify_kerberos_ticket w h = Ret true <-> klist_status w h <> 1)
  /\ (forall url method desc,
        klist_status w h <> 1 ->
        requests (events (setup_requests url method desc) w h)
          = [Request (verb_of_method method) url (response_at w h method url)]).
Proof.
  unfold result, events. rewrite verify_kerberos_ticket_run.
  destruct (klist_status w h =? 1) eqn:Hst; simpl.
  - apply Z.eqb_eq in Hst. repeat split; try done.
  - apply Z.eqb_neq in Hst. repeat split; try done.
    intros url method desc _.
    pose proof (setup_requests_requests url method desc w h) as Hr.
    unfold events in Hr. rewrite Hr.
    by apply Z.eqb_neq in Hst as ->.
Qed.

Lemma verify_kerberos_ticket_status_2 :
  klist_status (Sample.steady 2 Sample.ok []) [] <> 1
  /\ result verify_kerberos_ticket (Sample.steady 2 Sample.ok []) [] = Ret true
  /\ requests (events (setup_requests "https://aq.example/host/h" "get" "Check Host")
                 (Sample.steady 2 Sample.ok []) [])
     = [Request Get "https://aq.example/host/h" Sample.ok].
Proof.
  assert (Hst : klist_status (Sample.steady 2 Sample.ok []) [] <> 1)
    by (vm_compute; discriminate).
  destruct (verify_kerberos_ticket_raises_only_on_status_1
              (Sample.steady 2 Sample.ok []) []) as (_ & _ & Hret & Hreq).
  split; [exact Hst|]. split; [by apply Hret|].
  exact (Hreq "https://aq.example/host/h" "get" "Check Host" Hst).
Defined.



(* ===================================================================== *)
(** ** The operations of the client, one request each *)

Arguments setup_requests : simpl never.

Ltac run_client :=
  intros w h; unfold result, events;
  match goal with
  | |- _ = (_ (?sr).1, _ ++ (?sr).2) =>
      let x := fresh "sr" in
      set (x := sr);
      unfold bind, try_except, log, emit, ret, raise; simpl;
      rewrite <- ?app_assoc; simpl;
      change (setup_requests _ _ _ w _) with x;
      destruct x as [[?|[]] ?]; simpl; rewrite ?app_nil_r; try done
  end.

Lemma aq_manage_performs cfg hostname env_type env_name :
  performs (aq_manage cfg hostname env_type env_name)
    [Log DEBUG "Attempting to manage %s to %s %s" [hostname; env_type; env_name]]
    (aq_url cfg +:+ "/host/" +:+ hostname +:+ "/command/manage?hostname="
       +:+ hostname +:+ "&" +:+ env_type +:+ "=" +:+ env_name +:+ "&force=true")
    "post" "Manage Host" unit_result.
Proof. unfold aq_manage. run_client. Qed.

Lemma create_machine_performs cfg message hostname prefix :
  performs (create_machine cfg message hostname prefix)
    [Log DEBUG "Attempting to create machine for %s " [hostname]]
    (aq_url cfg +:+ "/next_machine/" +:+ prefix +:+ "?model=vm-openstack&serial="
       +:+ instance_id message +:+ "&vmhost=" +:+ host message
       +:+ "&cpucount=" +:+ Py.str_of_int (vcpus message)
       +:+ "&memory=" +:+ Py.str_of_int (memory_mb message))
    "put" "Create Machine" id.
Proof. unfold create_machine. run_client. Qed.

Lemma delete_machine_performs cfg machinename :
  performs (delete_machine cfg machinename)
    [Log DEBUG "Attempting to delete machine for %s" [machinename]]
    (aq_url cfg +:+ "/machine/" +:+ machinename)
    "delete" "Delete Machine" unit_result.
Proof. unfold delete_machine. run_client. Qed.

Lemma create_host_performs cfg hostname machinename firstip osname osversion :
  let url :=
    aq_url cfg +:+ "/host/" +:+ hostname +:+ "?machine=" +:+ machinename
    +:+ "&ip=" +:+ firstip +:+ "&archetype=" +:+ aq_archetype cfg
    +:+ "&domain=" +:+ aq_domain cfg +:+ "&personality=" +:+ aq_personality cfg
    +:+ "&osname=" +:+ osname +:+ "&osversion=" +:+ osversion in
  performs (create_host cfg hostname machinename firstip osname osversion)
    [Log DEBUG "Attempting to create host for %s " [hostname]; Log DEBUG url []]
    url "put" "Host Create" unit_result.
Proof. unfold create_host. run_client. Qed.

Lemma delete_host_performs cfg hostname :
  performs (delete_host cfg hostname)
    [Log DEBUG "Attempting to delete host for %s " [hostname]]
    (aq_url cfg +:+ "/host/" +:+ hostname)
    "delete" "Host Delete" unit_result.
Proof. unfold delete_host. run_client. Qed.

Lemma add_machine_interface_performs cfg machinename macaddr interfacename :
  performs (add_machine_interface cfg machinename macaddr interfacename)
    [Log DEBUG "Attempting to add interface %s to machine %s "
       [interfacename; machinename]]
    (aq_url cfg +:+ "/machine/" +:+ machinename +:+ "/interface/"
       +:+ interfacename +:+ "?mac=" +:+ macaddr)
    "put" "Add Machine Interface" unit_result.
Proof. unfold add_machine_interface. run_client. Qed.

Lemma add_machine_interface_address_performs cfg machinename ipaddr
    interfacename hostname :
  performs
    (add_machine_interface_address cfg machinename ipaddr interfacename hostname)
    [Log DEBUG "Attempting to add address ip %s to machine %s "
       [ipaddr; machinename]]
    (aq_url cfg +:+ "/interface_address?machine=" +:+ machinename
       +:+ "&interface=" +:+ interfacename +:+ "&ip=" +:+ ipaddr
       +:+ "&fqdn=" +:+ hostname)
    "put" "Add Machine Interface Address" unit_result.
Proof. unfold add_machine_interface_address. run_client. Qed.

Lemma update_machine_interface_performs cfg machinename interfacename :
  performs (update_machine_interface cfg machinename interfacename)
    [Log DEBUG "Attempting to bootable %s " [machinename]]
    (aq_url cfg +:+ "/machine/" +:+ machinename +:+ "/interface/"
       +:+ interfacename +:+ "?boot&default_route")
    "post" "Update Machine Interface" unit_result.
Proof. unfold update_machine_interface. run_client. Qed.

Lemma check_host_exists_performs cfg hostname :
  performs (check_host_exists cfg hostname)
    [Log DEBUG "Checking if hostname exists: %s" [hostname]]
    (aq_url cfg +:+ "/host/" +:+ hostname)
    "get" "Check Host" (host_check_result hostname).
Proof.
  unfold check_host_exists. run_client.
  destruct (Py.contains _ _); simpl; by rewrite app_nil_r.
Qed.

Lemma aq_make_blank cfg hostname aq_fields w h :
  blank hostname = true ->
  aq_make cfg hostname aq_fields w h =
    (Raise (ValueError "An empty hostname cannot be used."),
     [Log DEBUG "Attempting to make templates for %s" [hostname]]).
Proof.
  unfold blank, aq_make, bind, log, emit, raise. simpl. by intros ->.
Qed.

Lemma aq_make_performs cfg hostname aq_fields :
  blank hostname = false ->
  performs (aq_make cfg hostname aq_fields)
    [Log DEBUG "Attempting to make templates for %s" [hostname]]
    (make_url cfg hostname aq_fields) "post" "Make Template: " unit_result.
Proof.
  intros Hb. unfold blank in Hb. unfold aq_make, make_url.
  intros w h; unfold result, events.
  match goal with
  | |- _ = (_ (?sr).1, _ ++ (?sr).2) => set (x := sr)
  end.
  unfold bind, try_except, log, emit, ret, raise; simpl. rewrite Hb.
  rewrite <- ?app_assoc; simpl.
  change (setup_requests _ _ _ w _) with x.
  destruct x as [[?|[]] ?]; simpl; rewrite ?app_nil_r; done.
Qed.

(* ===================================================================== *)
(** ** What one request looks like in a trace *)

Lemma split_at_unique {A} (P : A -> bool) l1 x l2 p y q :
  l1 ++ x :: l2 = p ++ y :: q ->
  P y = true ->
  Forall (fun a => P a = false) l1 ->
  Forall (fun a => P a = false) l2 ->
  p = l1 /\ y = x /\ q = l2.
Proof.
  revert p. induction l1 as [|a l1 IH]; intros p Heq Hy H1 H2.
  - destruct p as [|b p]; simpl in Heq.
    + by injection Heq as -> ->.
    + injection Heq as -> ->.
      apply Forall_app in H2 as [_ H2]. apply Forall_cons in H2 as [H2 _].
      congruence.
  - apply Forall_cons in H1 as [Ha H1].
    destruct p as [|b p]; simpl in Heq.
    + injection Heq as ->. congruence.
    + injection Heq as -> Heq.
      destruct (IH p Heq Hy H1 H2) as (-> & -> & ->). done.
Qed.

Lemma split_after_prefix {A} (P : A -> bool) l es pre x post :
  l ++ es = pre ++ x :: post ->
  P x = true ->
  Forall (fun a => P a = false) l ->
  exists pre', pre = l ++ pre' /\ es = pre' ++ x :: post.
Proof.
  revert pre. induction l as [|a l IH]; intros pre Heq Hx Hl.
  - by exists pre.
  - apply Forall_cons in Hl as [Ha Hl]. destruct pre as [|b pre]; simpl in Heq.
    + injection Heq as -> _. congruence.
    + injection Heq as -> Heq. destruct (IH pre Heq Hx Hl) as (pre' & -> & ->).
      by exists pre'.
Qed.


Lemma setup_requests_steps url method desc w h :
  steps (events (setup_requests url method desc) w h) = [].
Proof.
  unfold events. rewrite setup_requests_run. cbv zeta.
  destruct (_ =? 1); [done|].
  destruct (_ =? 400); [done|]. by destruct (_ =? 200).
Qed.

Lemma setup_requests_client_events url method desc w h :
  Forall (fun e => is_client_event e = true)
    (events (setup_requests url method desc) w h).
Proof.
  unfold events. rewrite setup_requests_run. cbv zeta.
  destruct (_ =? 1); [by repeat constructor|].
  destruct (_ =? 400); [by repeat constructor|].
  destruct (_ =? 200); by repeat constructor.
Qed.

(** The request of [setup_requests] comes right after a ticket check that
    did not exit with status 1. *)
Lemma setup_requests_request_position url method desc w h pre v u r post :
  events (setup_requests url method desc) w h = pre ++ Request v u r :: post ->
  klist_status w h <> 1
  /\ pre = before_request (klist_status w h) method url
  /\ Request v u r = Request (verb_of_method method) url (response_at w h method url).
Proof.
  unfold events. rewrite setup_requests_run. cbv zeta.
  destruct (klist_status w h =? 1) eqn:Hst; simpl.
  { destruct pre as [|? [|? [|? ?]]]; discriminate. }
  apply Z.eqb_neq in Hst. intros Heq. split; [done|].
  assert (Hsplit : forall tl,
    Forall (fun e => is_request e = false) tl ->
    before_request (klist_status w h) method url
      ++ Request (verb_of_method method) url (response_at w h method url) :: tl
      = pre ++ Request v u r :: post ->
    pre = before_request (klist_status w h) method url
    /\ Request v u r
       = Request (verb_of_method method) url (response_at w h method url)).
  { intros tl Htl Hsp.
    destruct (split_at_unique is_request _ _ _ _ _ _ Hsp) as (-> & -> & _);
      try done.
    by repeat constructor. }
  destruct (status_code _ =? 400); [|destruct (status_code _ =? 200)];
    (eapply Hsplit; [|exact Heq]); by repeat constructor.
Qed.

Section Performs.

Context {A : Type} (m : M A) (logs : trace) (url method desc : string)
  (k : outcome string -> outcome A).
Hypothesis Hm : performs m logs url method desc k.
Hypothesis Hlogs : Forall (fun e => is_log e = true) logs.

Lemma performs_events w h :
  events m w h = logs ++ events (setup_requests url method desc) w (h ++ logs).
Proof. unfold events at 1. by rewrite Hm. Qed.

Lemma performs_result w h :
  result m w h = k (result (setup_requests url method desc) w (h ++ logs)).
Proof. unfold result at 1. by rewrite Hm. Qed.

Lemma performs_steps w h : steps (events m w h) = steps logs.
Proof.
  rewrite performs_events. unfold steps. rewrite omap_app.
  fold (steps (events (setup_requests url method desc) w (h ++ logs))).
  by rewrite setup_requests_steps, app_nil_r.
Qed.

Lemma performs_client_events w h :
  Forall (fun e => is_client_event e = true) (events m w h).
Proof.
  rewrite performs_events. apply Forall_app. split.
  - eapply Forall_impl; [exact Hlogs|]. by intros [] ?.
  - apply setup_requests_client_events.
Qed.

Lemma logs_no_request : requests logs = [].
Proof.
  clear Hm. induction logs as [|e l IH]; [done|].
  apply Forall_cons in Hlogs as [He Hl]. destruct e; try done. by apply IH.
Qed.

Lemma logs_no_ticket_check : ticket_checks logs = [].
Proof.
  clear Hm. induction logs as [|e l IH]; [done|].
  apply Forall_cons in Hlogs as [He Hl]. destruct e; try done. by apply IH.
Qed.

Lemma performs_requests w h :
  requests (events m w h) =
    if klist_status w (h ++ logs) =? 1 then []
    else [Request (verb_of_method method) url
            (response_at w (h ++ logs) method url)].
Proof.
  by rewrite performs_events, requests_app, logs_no_request,
    setup_requests_requests.
Qed.

Lemma performs_ticket_checks w h :
  ticket_checks (events m w h)
    = [SubprocessCall KLIST (klist_status w (h ++ logs))].
Proof.
  by rewrite performs_events, ticket_checks_app, logs_no_ticket_check,
    setup_requests_ticket_checks.
Qed.

Lemma performs_request_position w h pre v u r post :
  events m w h = pre ++ Request v u r :: post ->
  klist_status w (h ++ logs) <> 1
  /\ pre = logs ++ before_request (klist_status w (h ++ logs)) method url
  /\ Request v u r
     = Request (verb_of_method method) url (response_at w (h ++ logs) method url).
Proof.
  rewrite performs_events. intros Heq.
  assert (Hl : Forall (fun e => is_request e = false) logs).
  { eapply Forall_impl; [exact Hlogs|]. by intros [] ?. }
  destruct (split_after_prefix is_request _ _ _ _ _ Heq eq_refl Hl)
    as (pre' & -> & Hsr).
  by apply setup_requests_request_position in Hsr as (Hst & -> & Hrq).
Qed.

End Performs.

(* ===================================================================== *)
(** ** Every operation checks the ticket first *)

Lemma performs_map {A B} (g : A -> B) (m : M A) logs url method desc k :
  performs m logs url method desc k ->
  performs (bind m (fun a => ret (g a))) logs url method desc
    (fun o => map_outcome g (k o)).
Proof.
  intros Hm w h. rewrite bind_run.
  rewrite (performs_result m logs url method desc k Hm),
    (performs_events m logs url method desc k Hm).
  destruct (k _); simpl; [|done]. by rewrite app_nil_r.
Qed.


Lemma call_make_blank cfg hostname aq_fields w h :
  blank hostname = true ->
  call cfg (Make hostname aq_fields) w h =
    (Raise (ValueError "An empty hostname cannot be used."),
     [Log DEBUG "Attempting to make templates for %s" [hostname]]).
Proof.
  intros Hb. simpl. rewrite bind_run. unfold result, events.
  by rewrite aq_make_blank.
Qed.




(* ===================================================================== *)
(** ** set_env *)


Lemma steps_app es1 es2 : steps (es1 ++ es2) = steps es1 ++ steps es2.
Proof. apply omap_app. Qed.




Lemma aq_make_steps cfg hostname aq_fields w h :
  steps (events (aq_make cfg hostname aq_fields) w h) = [SMake].
Proof.
  destruct (blank hostname) eqn:Hb.
  - unfold events. by rewrite aq_make_blank.
  - by rewrite (performs_steps _ _ _ _ _ _ (aq_make_performs cfg hostname aq_fields Hb)).
Qed.




(* ===================================================================== *)
(** ** The calls of a run *)

Lemma events_try_except {A} (m : M A) (hd : exn -> M A) w h :
  events (try_except m hd) w h =
    events m w h ++
    match result m w h with
    | Ret _ => []
    | Raise e => events (hd e) w (h ++ events m w h)
    end.
Proof.
  unfold try_except, events, result.
  destruct (m w h) as [[a|e] es]; simpl; [by rewrite app_nil_r|].
  by destruct (hd e w (h ++ es)).
Qed.

Lemma result_try_except {A} (m : M A) (hd : exn -> M A) w h :
  result (try_except m hd) w h =
    match result m w h with
    | Ret a => Ret a
    | Raise e => result (hd e) w (h ++ events m w h)
    end.
Proof.
  unfold try_except, events, result.
  destruct (m w h) as [[a|e] es]; simpl; [done|].
  by destruct (hd e w (h ++ es)).
Qed.

Lemma events_try_finally {A} (m : M A) (fin : M unit) w h :
  events (try_finally m fin) w h = events m w h ++ events fin w (h ++ events m w h).
Proof.
  unfold try_finally, events.
  destruct (m w h) as [r es]; simpl. by destruct (fin w (h ++ es)) as [[]].
Qed.

Lemma step_in_steps e s es : In e es -> step_of e = Some s -> In s (steps es).
Proof.
  intros Hin Hs. apply list_elem_of_In. apply list_elem_of_In in Hin.
  unfold steps. apply list_elem_of_omap. eauto.
Qed.

Lemma steps_split es pre s post :
  steps es = pre ++ s :: post ->
  exists epre e epost,
    es = epre ++ e :: epost /\ step_of e = Some s
    /\ steps epre = pre /\ steps epost = post.
Proof.
  revert pre. induction es as [|e0 es IH]; intros pre Heq.
  - by destruct pre.
  - unfold steps in Heq. simpl in Heq. fold (steps es) in Heq.
    destruct (step_of e0) as [s0|] eqn:Hs0; simpl in Heq.
    + destruct pre as [|p pre]; simpl in Heq.
      * injection Heq as -> Heq. exists [], e0, es. by rewrite Hs0.
      * injection Heq as -> Heq.
        destruct (IH pre Heq) as (epre & e & epost & -> & Hs & <- & <-).
        exists (e0 :: epre), e, epost. repeat split; try done.
        unfold steps. simpl. by rewrite Hs0.
    + destruct (IH pre Heq) as (epre & e & epost & -> & Hs & <- & <-).
      exists (e0 :: epre), e, epost. repeat split; try done.
      unfold steps. simpl. by rewrite Hs0.
Qed.

Lemma runs_within_exact {A} (m : M A) L :
  (forall w h, steps (events m w h) = L) -> runs_within m L.
Proof. intros Hm w h. rewrite Hm. done. Qed.

Lemma runs_within_within {A} (m : M A) L : runs_within m L -> within m L.
Proof. intros Hm w h. apply Hm. Qed.

Lemma runs_within_ret {A} (a : A) : runs_within (ret a) [].
Proof. by apply runs_within_exact. Qed.

Lemma runs_within_bind {A B} (m : M A) (f : A -> M B) L1 L2 :
  runs_within m L1 -> (forall a, runs_within (f a) L2) ->
  runs_within (bind m f) (L1 ++ L2).
Proof.
  intros Hm Hf w h. rewrite events_bind, result_bind, steps_app.
  destruct (Hm w h) as [Hpre Hret].
  destruct (result m w h) as [a|e] eqn:Hres.
  - rewrite (Hret a eq_refl). destruct (Hf a w (h ++ events m w h)) as [Hp Hr].
    split; [by apply prefix_app|]. intros b Hb. by rewrite (Hr b Hb).
  - rewrite app_nil_r. split; [by apply prefix_app_r|]. done.
Qed.

Lemma within_bind {A B} (m : M A) (f : A -> M B) L1 L2 :
  runs_within m L1 -> (forall a, within (f a) L2) ->
  within (bind m f) (L1 ++ L2).
Proof.
  intros Hm Hf w h. rewrite events_bind, steps_app.
  destruct (Hm w h) as [Hpre Hret].
  destruct (result m w h) as [a|e] eqn:Hres.
  - rewrite (Hret a eq_refl). apply prefix_app, Hf.
  - rewrite app_nil_r. by apply prefix_app_r.
Qed.

Lemma runs_within_performs {A} (m : M A) logs url method desc k L :
  performs m logs url method desc k -> steps logs = L -> runs_within m L.
Proof.
  intros Hm <-. apply runs_within_exact. intros w h.
  apply (performs_steps _ _ _ _ _ _ Hm).
Qed.

(** *** The calls of the registry's part of the saga *)

Lemma delete_machine_record_run cfg name w h :
  Consumer.delete_machine_record cfg name w h =
    (delete_record_result (result (delete_machine cfg name) w h),
     events (delete_machine cfg name) w h).
Proof.
  unfold Consumer.delete_machine_record, try_except, result, events.
  destruct (delete_machine cfg name w h) as [[[]|[]] es]; simpl;
    rewrite ?app_nil_r; try done.
  destruct (Consumer.is_not_found msg); simpl; by rewrite app_nil_r.
Qed.

Lemma delete_machine_record_steps cfg name w h :
  steps (events (Consumer.delete_machine_record cfg name) w h) = [SDeleteMachine].
Proof.
  unfold events at 1. rewrite delete_machine_record_run. simpl.
  by rewrite (performs_steps _ _ _ _ _ _ (delete_machine_performs cfg name)).
Qed.

Lemma add_machine_nics_runs cfg machinename bs :
  runs_within (Consumer.add_machine_nics cfg machinename bs) (attach_steps bs).
Proof.
  induction bs as [|b bs IH]; simpl; [apply runs_within_ret|].
  change (SAddInterface :: SAddInterfaceAddress :: attach_steps bs)
    with ([SAddInterface] ++ [SAddInterfaceAddress] ++ attach_steps bs).
  apply runs_within_bind; [|intros _; apply runs_within_bind; [|done]].
  - by eapply runs_within_performs; [apply add_machine_interface_performs|].
  - by eapply runs_within_performs; [apply add_machine_interface_address_performs|].
Qed.

Lemma set_env_runs cfg aq_details domain hostname sandbox :
  runs_within (set_env cfg aq_details domain hostname sandbox) [SManage; SMake].
Proof.
  unfold set_env. change [SManage; SMake] with ([SManage] ++ [SMake]).
  apply runs_within_bind.
  - destruct (Py.truthy_opt domain);
      by eapply runs_within_performs; [apply aq_manage_performs|].
  - intros _. apply runs_within_exact. apply aq_make_steps.
Qed.

Lemma register_runs cfg msg image first bs :
  runs_within (Consumer.register cfg msg image first bs) (register_steps bs).
Proof.
  unfold Consumer.register, register_steps.
  change ([SDeleteMachine; SCreateMachine] ++ attach_steps bs
          ++ [SUpdateInterface; SCreateHost; SManage; SMake])
    with ([SDeleteMachine] ++ [SCreateMachine] ++ attach_steps bs
          ++ [SUpdateInterface] ++ [SCreateHost] ++ [SManage; SMake]).
  apply runs_within_bind;
    [apply runs_within_exact, delete_machine_record_steps|intros _].
  apply runs_within_bind;
    [by eapply runs_within_performs; [apply create_machine_performs|]
    |intros machinename].
  apply runs_within_bind; [apply add_machine_nics_runs|intros _].
  apply runs_within_bind;
    [by eapply runs_within_performs; [apply update_machine_interface_performs|]
    |intros _].
  apply runs_within_bind;
    [by eapply runs_within_performs; [apply create_host_performs|]|intros _].
  apply set_env_runs.
Qed.

(* ===================================================================== *)
(** ** The eligibility gate *)

Lemma is_aq_managed_image_run keys msg w h :
  exists image,
    Consumer.is_aq_managed_image keys msg w h
      = (Ret image,
         [GetImage (Consumer.image_id msg) (image_tags w h (Consumer.image_id msg))]).
Proof.
  unfold Consumer.is_aq_managed_image, Consumer.get_image, bind, ret. simpl.
  destruct (_ !! _) as [v|]; [destruct (Py.truthy v)|]; eauto.
Qed.

Lemma is_aq_managed_image_steps keys msg w h :
  steps (events (Consumer.is_aq_managed_image keys msg) w h) = [SGetImage].
Proof.
  destruct (is_aq_managed_image_run keys msg w h) as [image Hrun].
  unfold events. by rewrite Hrun.
Qed.

Lemma check_machine_valid_run keys msg w h :
  let vm := instance_id (Consumer.payload msg) in
  Consumer.check_machine_valid keys msg w h =
    if machine_exists w h vm then
      (match result (Consumer.is_aq_managed_image keys msg) w
               (h ++ [CheckMachineExists vm true]) with
       | Ret (Some _) => Ret true
       | Ret None => Ret false
       | Raise e => Raise e
       end,
       CheckMachineExists vm true
         :: events (Consumer.is_aq_managed_image keys msg) w
              (h ++ [CheckMachineExists vm true]))
    else (Ret false, [CheckMachineExists vm false; GONE vm]).
Proof.
  cbv zeta. unfold Consumer.check_machine_valid at 1.
  unfold Consumer.check_machine_exists, bind at 1. simpl.
  destruct (machine_exists w h _); simpl; [|done].
  destruct (is_aq_managed_image_run keys msg w
              (h ++ [CheckMachineExists (instance_id (Consumer.payload msg)) true]))
    as [image Hrun].
  unfold bind, result, events. rewrite Hrun. simpl.
  by destruct image.
Qed.

(** C6: [check_machine_valid] always returns, and it returns [True] exactly
    when the instance exists in the cloud platform and
    [is_aq_managed_image], asked after that, returns image metadata.  For an
    instance that does not exist it logs, returns [False] and never fetches
    the image. *)
Theorem check_machine_valid_iff keys msg w h :
  let vm := instance_id (Consumer.payload msg) in
  (result (Consumer.check_machine_valid keys msg) w h = Ret true <->
     machine_exists w h vm = true
     /\ exists image,
          result (Consumer.is_aq_managed_image keys msg) w
            (h ++ [CheckMachineExists vm true]) = Ret (Some image))
  /\ (result (Consumer.check_machine_valid keys msg) w h = Ret true
      \/ result (Consumer.check_machine_valid keys msg) w h = Ret false)
  /\ (machine_exists w h vm = false ->
      Consumer.check_machine_valid keys msg w h
        = (Ret false, [CheckMachineExists vm false; GONE vm])
      /\ ~ In SGetImage (steps (events (Consumer.check_machine_valid keys msg) w h))).
Proof.
  cbv zeta.
  destruct (is_aq_managed_image_run keys msg w
              (h ++ [CheckMachineExists (instance_id (Consumer.payload msg)) true]))
    as [image Himg].
  pose proof (check_machine_valid_run keys msg w h) as Hrun. cbv zeta in Hrun.
  unfold result, events in *. rewrite Hrun, Himg. clear Hrun Himg.
  destruct (machine_exists w h _) eqn:Hex; simpl.
  - destruct image as [image|]; (split; [|split; [|done]]); eauto.
    + split; [|done]. intros _. eauto.
    + split; [done|]. by intros [_ [? ?]].
  - split; [|split; [by right|]].
    + split; [done|]. by intros [? _].
    + intros _. split; [done|]. by intros [?|[]].
Qed.

Lemma check_machine_valid_iff_witness :
  machine_exists Sample.vanished [] (instance_id (Consumer.payload Sample.create_event))
    = false
  /\ Consumer.check_machine_valid Sample.keys Sample.create_event Sample.vanished []
     = (Ret false, [CheckMachineExists "abc-123" false; GONE "abc-123"]).
Proof.
  split; [reflexivity|].
  destruct (check_machine_valid_iff Sample.keys Sample.create_event
              Sample.vanished []) as (_ & _ & Hgone).
  exact (proj1 (Hgone eq_refl)).
Defined.

(* ===================================================================== *)
(** ** The shape of a create saga *)

Lemma add_hostname_to_metadata_run msg bs w h :
  let vm := instance_id (Consumer.payload msg) in
  Consumer.add_hostname_to_metadata msg bs w h =
    if machine_exists w h vm then
      (Ret tt, [CheckMachineExists vm true;
                UpdateMetadata vm (Consumer.hostnames_metadata bs)])
    else (Ret tt, [CheckMachineExists vm false]).
Proof.
  cbv zeta. unfold Consumer.add_hostname_to_metadata,
    Consumer.check_machine_exists, Consumer.update_metadata, bind, emit, ret.
  simpl. by destruct (machine_exists w h _).
Qed.

Lemma attach_steps_attach bs s : In s (attach_steps bs) -> is_attach s = true.
Proof.
  induction bs as [|b bs IH]; simpl; [done|].
  intros [<-|[<-|Hin]]; auto.
Qed.

Lemma register_steps_elements bs s :
  In s (register_steps bs) ->
  is_attach s = true
  \/ In s [SDeleteMachine; SCreateMachine; SUpdateInterface; SCreateHost;
           SManage; SMake].
Proof.
  unfold register_steps. intros Hin.
  apply in_app_or in Hin as [Hin|Hin]; [right|].
  { simpl in *. tauto. }
  apply in_app_or in Hin as [Hin|Hin]; [left; by eapply attach_steps_attach|right].
  simpl in *. tauto.
Qed.

(** No event of a run shows a call that is outside the list the run stays
    within. *)
Lemma not_in_steps es L s e :
  steps es `prefix_of` L -> ~ In s L -> In e es -> step_of e <> Some s.
Proof.
  intros [k ->] Hs Hin He. apply Hs, in_or_app. left.
  by eapply step_in_steps.
Qed.

Lemma result_get_server_networks vm w h :
  result (Consumer.get_server_networks vm) w h = Ret (server_networks w h vm).
Proof. done. Qed.

Lemma events_get_server_networks vm w h :
  events (Consumer.get_server_networks vm) w h
    = [GetServerNetworks vm (server_networks w h vm)].
Proof. done. Qed.

(** The run of the create saga: the image and the bindings are fetched, and
    with a managed image and a first binding the registry's part runs,
    followed, if it returned, by the write-back. *)
Lemma create_saga_run cfg keys msg w h :
  let vm := instance_id (Consumer.payload msg) in
  exists tags,
    (Consumer.create_saga cfg keys msg w h
       = (Raise (ValueError "The image is not managed."),
          [GetImage (Consumer.image_id msg) tags]))
    \/ exists image bs,
         let pre := [GetImage (Consumer.image_id msg) tags; GetServerNetworks vm bs] in
         (bs = []
          /\ Consumer.create_saga cfg keys msg w h
             = (Raise (IndexError "list index out of range"), pre))
         \/ exists first rest,
              bs = first :: rest
              /\ Consumer.create_saga cfg keys msg w h
                 = (result (bind (Consumer.register cfg msg image first bs)
                              (fun _ => Consumer.add_hostname_to_metadata msg bs))
                      w (h ++ pre),
                    pre ++ events (bind (Consumer.register cfg msg image first bs)
                                     (fun _ => Consumer.add_hostname_to_metadata msg bs))
                             w (h ++ pre)).
Proof.
  cbv zeta. destruct (is_aq_managed_image_run keys msg w h) as [image Himg].
  exists (image_tags w h (Consumer.image_id msg)).
  set (e_img := GetImage _ _) in *.
  assert (Hsaga : Consumer.create_saga cfg keys msg w h =
    match image with
    | None => (Raise (ValueError "The image is not managed."), [e_img])
    | Some image =>
        let bs := server_networks w (h ++ [e_img]) (instance_id (Consumer.payload msg)) in
        let pre := [e_img; GetServerNetworks (instance_id (Consumer.payload msg)) bs] in
        match bs with
        | [] => (Raise (IndexError "list index out of range"), pre)
        | first :: _ =>
            (result (bind (Consumer.register cfg msg image first bs)
                       (fun _ => Consumer.add_hostname_to_metadata msg bs))
               w (h ++ pre),
             pre ++ events (bind (Consumer.register cfg msg image first bs)
                              (fun _ => Consumer.add_hostname_to_metadata msg bs))
                      w (h ++ pre))
        end
    end).
  { assert (Hr : result (Consumer.is_aq_managed_image keys msg) w h = Ret image)
      by (unfold result; by rewrite Himg).
    assert (He : events (Consumer.is_aq_managed_image keys msg) w h = [e_img])
      by (unfold events; by rewrite Himg).
    unfold Consumer.create_saga. rewrite run_eq, result_bind, events_bind, Hr, He.
    destruct image as [image|]; [|done].
    rewrite result_bind, events_bind.
    rewrite result_get_server_networks, events_get_server_networks.
    rewrite <- !app_assoc. simpl.
    by destruct (server_networks w (h ++ [e_img]) _) as [|first rest]. }
  rewrite Hsaga. clear Hsaga Himg.
  destruct image as [image|]; [right|by left].
  exists image, (server_networks w (h ++ [e_img]) (instance_id (Consumer.payload msg))).
  cbv zeta.
  destruct (server_networks w (h ++ [e_img]) _) as [|first rest]; [by left|].
  right. by exists first, rest.
Qed.

(* ===================================================================== *)
(** ** Strings *)

Ltac step_append :=
  repeat match goal with
         | |- context [String ?c ?s +:+ ?t] =>
             change (String c s +:+ t) with (String c (s +:+ t))
         | |- context [EmptyString +:+ ?t] =>
             change (EmptyString +:+ t) with t
         end.

Lemma append_nil_r (s : string) : s +:+ "" = s.
Proof. induction s as [|c s IH]; step_append; [done|]. by rewrite IH. Qed.

Lemma append_assoc (a b c : string) : (a +:+ b) +:+ c = a +:+ (b +:+ c).
Proof. induction a as [|x a IH]; step_append; [done|]. by rewrite IH. Qed.

Lemma append_truthy_r (a b : string) :
  Py.truthy b = true -> Py.truthy (a +:+ b) = true.
Proof. destruct a; step_append; done. Qed.

Lemma last_char_append (a b : string) :
  Py.truthy b = true -> Py.last_char (a +:+ b) = Py.last_char b.
Proof.
  intros Hb. induction a as [|x a IH]; step_append; [done|].
  simpl. rewrite IH.
  pose proof (append_truthy_r a b Hb) as Hab. by destruct (a +:+ b).
Qed.

Lemma drop_last_append (a b : string) :
  Py.truthy b = true -> Py.drop_last (a +:+ b) = a +:+ Py.drop_last b.
Proof.
  intros Hb. induction a as [|x a IH]; step_append; [done|].
  simpl. rewrite IH.
  pose proof (append_truthy_r a b Hb) as Hab. by destruct (a +:+ b).
Qed.

Lemma prefix_append (a b : string) : String.prefix a (a +:+ b) = true.
Proof.
  induction a as [|x a IH]; step_append; simpl; [by destruct b|].
  by destruct (Ascii.ascii_dec x x).
Qed.

(** [strip] leaves something exactly of a string that holds a character
    which is not whitespace. *)
Lemma lstrip_cases (s : string) :
  (Py.lstrip s = "" /\ all_space s = true)
  \/ (exists c s', Py.lstrip s = String c s' /\ Py.is_space c = false
                   /\ all_space s = false).
Proof.
  induction s as [|c s IH]; simpl; [by left|].
  destruct (Py.is_space c) eqn:Hc; simpl; [done|].
  right. by exists c, s.
Qed.

Lemma strip_truthy (s : string) : Py.truthy (Py.strip s) = negb (all_space s).
Proof.
  unfold Py.strip.
  destruct (lstrip_cases s) as [[-> ->]|(c & s' & -> & Hc & ->)]; [done|].
  simpl. by rewrite Hc.
Qed.

Lemma blank_all_space (s : string) : blank s = all_space s.
Proof.
  unfold blank. rewrite strip_truthy, negb_involutive.
  destruct s as [|c s]; [done|]. simpl. done.
Qed.

Lemma kept_not_all_space (v : string) :
  Py.truthy v && Py.truthy (Py.strip v) = negb (all_space v).
Proof. rewrite strip_truthy. by destruct v. Qed.

(* ===================================================================== *)
(** ** aq_make: the hostname and the query string *)

Lemma setup_requests_result url method desc w h :
  result (setup_requests url method desc) w h =
    let r := response_at w h method url in
    if klist_status w h =? 1 then Raise NO_TICKET
    else if status_code r =? 400 then Raise (AquilonError (text r))
    else if status_code r =? 200 then Ret (text r)
    else Raise (ConnectionError (connection_error_message desc r)).
Proof.
  unfold result. rewrite setup_requests_run. cbv zeta.
  destruct (_ =? 1); [done|].
  destruct (_ =? 400); [done|]. by destruct (_ =? 200).
Qed.

(** X1: [aq_make] raises its [ValueError] exactly for a hostname that is
    empty or holds nothing but whitespace, and then it has done nothing but
    log the attempt: no ticket check, no request. *)
Theorem aq_make_rejects_blank_hostname cfg hostname aq_fields w h :
  (result (aq_make cfg hostname aq_fields) w h
     = Raise (ValueError "An empty hostname cannot be used.")
   <-> all_space hostname = true)
  /\ (all_space hostname = true ->
      events (aq_make cfg hostname aq_fields) w h
        = [Log DEBUG "Attempting to make templates for %s" [hostname]]).
Proof.
  rewrite <- blank_all_space. destruct (blank hostname) eqn:Hb.
  - unfold result, events. rewrite aq_make_blank by done. done.
  - split; [|done]. split; [|done].
    rewrite (performs_result _ _ _ _ _ _ (aq_make_performs cfg hostname aq_fields Hb)).
    rewrite setup_requests_result. cbv zeta.
    destruct (_ =? 1); [done|].
    destruct (_ =? 400); [done|]. by destruct (_ =? 200).
Qed.

Lemma aq_make_rejects_blank_hostname_witness :
  all_space "  " = true
  /\ events (aq_make Sample.cfg "  " Sample.fields) Sample.good []
     = [Log DEBUG "Attempting to make templates for %s" ["  "]].
Proof.
  split; [reflexivity|].
  exact (proj2 (aq_make_rejects_blank_hostname Sample.cfg "  " Sample.fields
                  Sample.good []) eq_refl).
Defined.

Lemma list_filter_bool {A} (f : A -> bool) (l : list A) :
  filter (fun x => f x = true) l = List.filter f l.
Proof.
  induction l as [|a l IH]; [done|].
  rewrite filter_cons. simpl. rewrite IH.
  destruct (decide (f a = true)) as [->|Hf]; [done|].
  by destruct (f a).
Qed.

Lemma make_url_query cfg hostname aq_fields :
  make_url cfg hostname aq_fields =
    let url := aq_url cfg +:+ ("/host/" +:+ hostname +:+ "/command/make")
               +:+ "?" +:+ make_query aq_fields in
    if bool_decide (Py.last_char url = Some "?"%char) then Py.drop_last url
    else url.
Proof.
  unfold make_url, make_query, make_params. cbv zeta.
  rewrite (list_filter_bool
             (fun kv : string * string => Py.truthy kv.2 && Py.truthy (Py.strip kv.2))).
  erewrite (List.filter_ext
              (fun kv : string * string => Py.truthy kv.2 && Py.truthy (Py.strip kv.2)));
    [done|].
  intros kv. apply kept_not_all_space.
Qed.

Lemma make_url_cases cfg hostname aq_fields :
  let q := make_query aq_fields in
  make_url cfg hostname aq_fields =
    if negb (Py.truthy q) then make_base cfg hostname
    else if bool_decide (Py.last_char q = Some "?"%char)
         then make_base cfg hostname +:+ "?" +:+ Py.drop_last q
         else make_base cfg hostname +:+ "?" +:+ q.
Proof.
  cbv zeta. rewrite make_url_query. cbv zeta. unfold make_base.
  set (B := "/host/" +:+ hostname +:+ "/command/make").
  set (q := make_query aq_fields).
  rewrite !append_assoc.
  destruct (Py.truthy q) eqn:Hq; simpl.
  - assert (Hlast : Py.last_char (aq_url cfg +:+ B +:+ "?" +:+ q) = Py.last_char q).
    { rewrite !last_char_append; try done; by repeat apply append_truthy_r. }
    rewrite Hlast.
    destruct (bool_decide (Py.last_char q = Some "?"%char)); [|done].
    rewrite !drop_last_append; try done; by repeat apply append_truthy_r.
  - destruct q; [|done].
    rewrite !last_char_append by done. simpl.
    rewrite !drop_last_append by done. simpl. by rewrite append_nil_r.
Qed.

(** X2: for a hostname that is not blank, and with a ticket, [aq_make]
    sends one POST.  Its URL is the make URL of the host followed by "?" and
    the fields that hold a character which is not whitespace, as key=value
    joined by "&" in the order personality, osversion, archetype, osname;
    without any such field the "?" is left out, and a query that itself
    ends in "?" loses that last character. *)
Theorem aq_make_request cfg hostname aq_fields w h :
  all_space hostname = false ->
  klist_status w (h ++ [Log DEBUG "Attempting to make templates for %s" [hostname]])
    <> 1 ->
  let q := make_query aq_fields in
  exists r,
    requests (events (aq_make cfg hostname aq_fields) w h) =
      [Request Post
         (if negb (Py.truthy q) then make_base cfg hostname
          else if bool_decide (Py.last_char q = Some "?"%char)
               then make_base cfg hostname +:+ "?" +:+ Py.drop_last q
               else make_base cfg hostname +:+ "?" +:+ q)
         r].
Proof.
  intros Hb Hst. rewrite <- blank_all_space in Hb. cbv zeta.
  assert (Hlogs : Forall (fun e => is_log e = true)
    [Log DEBUG "Attempting to make templates for %s" [hostname]])
    by (by repeat constructor).
  rewrite (performs_requests _ _ _ _ _ _
             (aq_make_performs cfg hostname aq_fields Hb) Hlogs).
  apply Z.eqb_neq in Hst. rewrite Hst.
  pose proof (make_url_cases cfg hostname aq_fields) as Hurl. cbv zeta in Hurl.
  rewrite Hurl. eauto.
Qed.

Lemma aq_make_request_witness :
  all_space "vm1.example.com" = false
  /\ klist_status Sample.good
       [Log DEBUG "Attempting to make templates for %s" ["vm1.example.com"]] <> 1
  /\ exists r,
       requests (events (aq_make Sample.cfg "vm1.example.com"
                           (Fields "nubesvms" " " "" "rocky?")) Sample.good [])
       = [Request Post
            "https://aq.example/host/vm1.example.com/command/make?personality=nubesvms&osname=rocky"
            r].
Proof.
  assert (Hb : all_space "vm1.example.com" = false) by reflexivity.
  assert (Hst : klist_status Sample.good
       ([] ++ [Log DEBUG "Attempting to make templates for %s" ["vm1.example.com"]])
       <> 1) by (vm_compute; discriminate).
  split; [exact Hb|]. split; [exact Hst|].
  exact (aq_make_request Sample.cfg "vm1.example.com"
           (Fields "nubesvms" " " "" "rocky?") Sample.good [] Hb Hst).
Defined.

(* ===================================================================== *)
(** ** Every operation, one request through [setup_requests] *)

Lemma make_url_prefix cfg hostname aq_fields :
  String.prefix (aq_url cfg) (make_url cfg hostname aq_fields) = true.
Proof.
  pose proof (make_url_cases cfg hostname aq_fields) as Hurl. cbv zeta in Hurl.
  rewrite Hurl. unfold make_base.
  destruct (negb _); [apply prefix_append|].
  destruct (bool_decide _); rewrite append_assoc; apply prefix_append.
Qed.

Lemma relays_map_unit c (k : outcome string -> outcome unit) :
  (forall o, k o = unit_result o) ->
  call_value c = (fun _ => VNone) ->
  relays c (fun o => map_outcome (fun _ => VNone) (k o)).
Proof.
  intros Hk Hv. split; [|split].
  - intros body. by rewrite Hk, Hv.
  - intros e _. by rewrite Hk.
  - intros msg. left. by rewrite Hk.
Qed.

(** Apart from [aq_make] with a blank hostname, every operation logs at
    level DEBUG, runs [setup_requests] once on a URL under the configured
    base with the verb of the operation, and relays its outcome. *)
Lemma call_shape cfg c :
  (exists hostname aq_fields, c = Make hostname aq_fields /\ blank hostname = true)
  \/ (exists logs url method desc k,
        performs (call cfg c) logs url method desc k
        /\ Forall (fun e => is_log e = true) logs
        /\ error_logs logs = []
        /\ verb_of_method method = call_verb c
        /\ String.prefix (aq_url cfg) url = true
        /\ relays c k).
Proof.
  destruct c; simpl;
    try (right; do 5 eexists;
         split;
         [apply performs_map;
          first [ apply aq_manage_performs | apply delete_machine_performs
                | apply create_host_performs | apply delete_host_performs
                | apply add_machine_interface_performs
                | apply add_machine_interface_address_performs
                | apply update_machine_interface_performs ]
         |split; [by repeat constructor|];
          split; [done|]; split; [done|];
          split; [apply prefix_append|by apply relays_map_unit] ]).
  - destruct (blank hostname) eqn:Hb; [left; eauto|].
    right. do 5 eexists. split; [by apply performs_map, aq_make_performs|].
    split; [by repeat constructor|].
    split; [done|]. split; [done|].
    split; [apply make_url_prefix|by apply relays_map_unit].
  - right. do 5 eexists. split; [apply performs_map, create_machine_performs|].
    split; [by repeat constructor|].
    split; [done|]. split; [done|].
    split; [apply prefix_append|].
    split; [done|split; [done|by left]].
  - right. do 5 eexists. split; [apply performs_map, check_host_exists_performs|].
    split; [by repeat constructor|].
    split; [done|]. split; [done|].
    split; [apply prefix_append|].
    split; [done|split].
    + intros [] He; try done. by destruct (He msg).
    + intros msg. simpl. destruct (Py.contains _ msg); [right|left]; done.
Qed.

Lemma performs_request_in {A} (m : M A) logs url method desc k w h v u r :
  performs m logs url method desc k ->
  Forall (fun e => is_log e = true) logs ->
  In (Request v u r) (events m w h) ->
  klist_status w (h ++ logs) <> 1
  /\ v = verb_of_method method /\ u = url
  /\ r = response_at w (h ++ logs) method url.
Proof.
  intros Hm Hlogs Hin. apply in_split in Hin as (pre & post & Heq).
  destruct (performs_request_position _ _ _ _ _ _ Hm Hlogs _ _ _ _ _ _ _ Heq)
    as (Hst & _ & Hrq).
  by injection Hrq as -> -> ->.
Qed.

(** X3: whatever request an operation sends, it sends with the verb of the
    registry's interface for that operation (POST for make, manage and the
    interface update, PUT for the creations and attachments, DELETE for the
    deletions, GET for the host check) and to a URL under the configured
    [aq_url]. *)
Theorem call_request_verb_and_base cfg c w h v u r :
  In (Request v u r) (events (call cfg c) w h) ->
  v = call_verb c /\ String.prefix (aq_url cfg) u = true.
Proof.
  destruct (call_shape cfg c)
    as [(hostname & aq_fields & -> & Hb)
       |(logs & url & method & desc & k & Hm & Hlogs & _ & Hverb & Hpre & _)].
  - unfold events. rewrite call_make_blank by done. by intros [?|[]].
  - intros Hin.
    destruct (performs_request_in _ _ _ _ _ _ _ _ _ _ _ Hm Hlogs Hin)
      as (_ & -> & -> & _).
    done.
Qed.

Lemma call_request_verb_and_base_witness :
  In (Request Delete "https://aq.example/host/vm1.example.com" Sample.ok)
     (events (call Sample.cfg (DeleteHost "vm1.example.com")) Sample.good [])
  /\ Delete = call_verb (DeleteHost "vm1.example.com")
  /\ String.prefix (aq_url Sample.cfg) "https://aq.example/host/vm1.example.com"
     = true.
Proof.
  assert (Hin : In (Request Delete "https://aq.example/host/vm1.example.com" Sample.ok)
     (events (call Sample.cfg (DeleteHost "vm1.example.com")) Sample.good []))
    by (vm_compute; tauto).
  split; [exact Hin|].
  exact (call_request_verb_and_base _ _ _ _ _ _ _ Hin).
Defined.



(* ===================================================================== *)
(** ** The host check, the machine name, error records, set_env *)

(** X4: with a ticket, [check_host_exists] sends one GET for the host and
    answers from its response alone: [True] exactly for status 200, [False]
    exactly for status 400 with a body that contains "Host <hostname> not
    found."; a 400 with any other body is raised as [AquilonError]. *)
Theorem check_host_exists_answer cfg hostname w h :
  let h' := h ++ [Log DEBUG "Checking if hostname exists: %s" [hostname]] in
  let r := response_at w h' "get" (aq_url cfg +:+ "/host/" +:+ hostname) in
  klist_status w h' <> 1 ->
  requests (events (check_host_exists cfg hostname) w h)
    = [Request Get (aq_url cfg +:+ "/host/" +:+ hostname) r]
  /\ (result (check_host_exists cfg hostname) w h = Ret true
      <-> status_code r = 200)
  /\ (result (check_host_exists cfg hostname) w h = Ret false
      <-> status_code r = 400
          /\ Py.contains ("Host " +:+ hostname +:+ " not found.") (text r) = true)
  /\ (status_code r = 400 ->
      Py.contains ("Host " +:+ hostname +:+ " not found.") (text r) = false ->
      result (check_host_exists cfg hostname) w h = Raise (AquilonError (text r))).
Proof.
  cbv zeta. intros Hst.
  pose proof (check_host_exists_performs cfg hostname) as Hm.
  assert (Hlogs : Forall (fun e => is_log e = true)
    [Log DEBUG "Checking if hostname exists: %s" [hostname]])
    by (by repeat constructor).
  rewrite (performs_requests _ _ _ _ _ _ Hm Hlogs),
    (performs_result _ _ _ _ _ _ Hm), setup_requests_result. cbv zeta.
  apply Z.eqb_neq in Hst. rewrite Hst.
  set (r := response_at w _ "get" _).
  split; [done|].
  destruct (status_code r =? 400) eqn:H400; simpl.
  - apply Z.eqb_eq in H400.
    destruct (Py.contains _ (text r)) eqn:Hc;
      (split; [|split]); try done; try (split; [done|lia]).
  - apply Z.eqb_neq in H400.
    destruct (status_code r =? 200) eqn:H200; simpl.
    + apply Z.eqb_eq in H200. split; [done|]. split; [|done].
      split; [done|]. by intros [? _].
    + apply Z.eqb_neq in H200. split; [done|]. split; [|done].
      split; [done|]. by intros [? _].
Qed.

Lemma check_host_exists_answer_witness :
  klist_status (Sample.steady 0 (Response 400 "Host other.example.com not found.") [])
    ([] ++ [Log DEBUG "Checking if hostname exists: %s" ["vm1.example.com"]]) <> 1
  /\ result (check_host_exists Sample.cfg "vm1.example.com")
       (Sample.steady 0 (Response 400 "Host other.example.com not found.") []) []
     = Raise (AquilonError "Host other.example.com not found.").
Proof.
  assert (Hst : klist_status
    (Sample.steady 0 (Response 400 "Host other.example.com not found.") [])
    ([] ++ [Log DEBUG "Checking if hostname exists: %s" ["vm1.example.com"]]) <> 1)
    by (vm_compute; discriminate).
  split; [exact Hst|].
  destruct (check_host_exists_answer Sample.cfg "vm1.example.com"
              (Sample.steady 0 (Response 400 "Host other.example.com not found.") [])
              [] Hst) as (_ & _ & _ & Hraise).
  apply Hraise; reflexivity.
Defined.

(** X6: [create_machine] returns a name exactly when the ticket check passed
    and the registry answered its PUT of the next-machine URL with status
    200; the name is the body of that response, unchanged. *)
Theorem create_machine_returns_body cfg message hostname prefix w h name :
  let h' := h ++ [Log DEBUG "Attempting to create machine for %s " [hostname]] in
  let r :=
    response_at w h' "put"
      (aq_url cfg +:+ "/next_machine/" +:+ prefix
         +:+ "?model=vm-openstack&serial=" +:+ instance_id message
         +:+ "&vmhost=" +:+ host message
         +:+ "&cpucount=" +:+ Py.str_of_int (vcpus message)
         +:+ "&memory=" +:+ Py.str_of_int (memory_mb message)) in
  result (create_machine cfg message hostname prefix) w h = Ret name
  <-> klist_status w h' <> 1 /\ status_code r = 200 /\ text r = name.
Proof.
  cbv zeta.
  rewrite (performs_result _ _ _ _ _ _
             (create_machine_performs cfg message hostname prefix)),
    setup_requests_result. cbv zeta. unfold id.
  set (r := response_at w _ "put" _).
  destruct (klist_status w _ =? 1) eqn:Hst.
  { apply Z.eqb_eq in Hst. split; [done|]. by intros [? _]. }
  apply Z.eqb_neq in Hst.
  destruct (status_code r =? 400) eqn:H400.
  { apply Z.eqb_eq in H400. split; [done|]. intros (_ & ? & _). lia. }
  destruct (status_code r =? 200) eqn:H200.
  - apply Z.eqb_eq in H200. split.
    + by intros [= ->].
    + by intros (_ & _ & ->).
  - apply Z.eqb_neq in H200. split; [done|]. by intros (_ & ? & _).
Qed.




Lemma requests_events_bind {A B} (m : M A) (f : A -> M B) w h :
  requests (events (bind m f) w h) =
    requests (events m w h) ++
    match result m w h with
    | Ret a => requests (events (f a) w (h ++ events m w h))
    | Raise _ => []
    end.
Proof. rewrite events_bind, requests_app. by destruct (result m w h). Qed.

(** X8: [set_env] sends at most two requests, both POST: first the manage
    request of the chosen environment, and the make request only after the
    manage request was answered with status 200. *)
Theorem set_env_requests cfg aq_details domain hostname sandbox w h :
  let env_type := if Py.truthy_opt domain then "domain" else "sandbox" in
  let env_name :=
    if Py.truthy_opt domain then Py.str_of_opt domain else Py.str_of_opt sandbox in
  let manage := manage_url cfg hostname env_type env_name in
  let make := make_url cfg hostname aq_details in
  let rs := requests (events (set_env cfg aq_details domain hostname sandbox) w h) in
  rs = []
  \/ (exists r1, rs = [Request Post manage r1])
  \/ (exists r1 r2,
        rs = [Request Post manage r1; Request Post make r2]
        /\ status_code r1 = 200).
Proof.
  cbv zeta.
  assert (Hset : set_env cfg aq_details domain hostname sandbox =
    bind (aq_manage cfg hostname
            (if Py.truthy_opt domain then "domain" else "sandbox")
            (if Py.truthy_opt domain then Py.str_of_opt domain
             else Py.str_of_opt sandbox))
         (fun _ => aq_make cfg hostname aq_details)).
  { unfold set_env. by destruct (Py.truthy_opt domain). }
  rewrite Hset. clear Hset.
  set (env_type := if Py.truthy_opt domain then _ else _).
  set (env_name := if Py.truthy_opt domain then _ else _).
  pose proof (aq_manage_performs cfg hostname env_type env_name) as Hm.
  assert (Hlogs : Forall (fun e => is_log e = true)
    [Log DEBUG "Attempting to manage %s to %s %s" [hostname; env_type; env_name]])
    by (by repeat constructor).
  rewrite requests_events_bind.
  rewrite (performs_requests _ _ _ _ _ _ Hm Hlogs),
    (performs_result _ _ _ _ _ _ Hm), setup_requests_result. cbv zeta.
  fold (manage_url cfg hostname env_type env_name).
  set (h1 := h ++ [Log DEBUG "Attempting to manage %s to %s %s" _]).
  set (r1 := response_at w h1 "post" _).
  destruct (klist_status w h1 =? 1); simpl; [by left|].
  right.
  destruct (status_code r1 =? 400); simpl; [left; eauto|].
  destruct (status_code r1 =? 200) eqn:H200; simpl; [|left; eauto].
  apply Z.eqb_eq in H200.
  destruct (blank hostname) eqn:Hb.
  - unfold events at 1. rewrite aq_make_blank by done. simpl. left. eauto.
  - assert (Hlogs' : Forall (fun e => is_log e = true)
      [Log DEBUG "Attempting to make templates for %s" [hostname]])
      by (by repeat constructor).
    rewrite (performs_requests _ _ _ _ _ _
               (aq_make_performs cfg hostname aq_details Hb) Hlogs').
    destruct (klist_status w _ =? 1); [left; eauto|].
    right. eauto.
Qed.

Lemma setup_requests_returns url method desc w h :
  unit_result (result (setup_requests url method desc) w h) = Ret tt ->
  klist_status w h <> 1 /\ status_code (response_at w h method url) = 200.
Proof.
  rewrite setup_requests_result. cbv zeta.
  destruct (klist_status w h =? 1) eqn:Hst; [done|].
  destruct (status_code _ =? 400); [done|].
  destruct (status_code _ =? 200) eqn:H200; [|done].
  intros _. split; [by apply Z.eqb_neq|by apply Z.eqb_eq].
Qed.

(** X9: a [set_env] that returns has run the ticket check twice, once
    before each request, neither exiting with status 1, and has sent
    exactly the manage request and then the make request, both answered
    with status 200; the hostname was not blank. *)
Theorem set_env_returns cfg aq_details domain hostname sandbox w h :
  let env_type := if Py.truthy_opt domain then "domain" else "sandbox" in
  let env_name :=
    if Py.truthy_opt domain then Py.str_of_opt domain else Py.str_of_opt sandbox in
  let es := events (set_env cfg aq_details domain hostname sandbox) w h in
  result (set_env cfg aq_details domain hostname sandbox) w h = Ret tt ->
  all_space hostname = false
  /\ exists st1 st2 r1 r2,
       ticket_checks es = [SubprocessCall KLIST st1; SubprocessCall KLIST st2]
       /\ st1 <> 1 /\ st2 <> 1
       /\ requests es
          = [Request Post (manage_url cfg hostname env_type env_name) r1;
             Request Post (make_url cfg hostname aq_details) r2]
       /\ status_code r1 = 200 /\ status_code r2 = 200.
Proof.
  cbv zeta.
  assert (Hset : set_env cfg aq_details domain hostname sandbox =
    bind (aq_manage cfg hostname
            (if Py.truthy_opt domain then "domain" else "sandbox")
            (if Py.truthy_opt domain then Py.str_of_opt domain
             else Py.str_of_opt sandbox))
         (fun _ => aq_make cfg hostname aq_details)).
  { unfold set_env. by destruct (Py.truthy_opt domain). }
  rewrite Hset. clear Hset.
  set (env_type := if Py.truthy_opt domain then _ else _).
  set (env_name := if Py.truthy_opt domain then _ else _).
  pose proof (aq_manage_performs cfg hostname env_type env_name) as Hm.
  assert (Hlogs : Forall (fun e => is_log e = true)
    [Log DEBUG "Attempting to manage %s to %s %s" [hostname; env_type; env_name]])
    by (by repeat constructor).
  rewrite result_bind, events_bind, requests_app, ticket_checks_app.
  rewrite (performs_requests _ _ _ _ _ _ Hm Hlogs),
    (performs_ticket_checks _ _ _ _ _ _ Hm Hlogs),
    (performs_result _ _ _ _ _ _ Hm).
  fold (manage_url cfg hostname env_type env_name).
  set (h1 := h ++ [Log DEBUG "Attempting to manage %s to %s %s" _]).
  destruct (unit_result (result (setup_requests _ "post" "Manage Host") w h1))
    as [[]|e] eqn:Hres1; [|done].
  apply setup_requests_returns in Hres1 as [Hst1 H1].
  set (h2 := h ++ events _ w h).
  rewrite <- blank_all_space.
  destruct (blank hostname) eqn:Hb.
  { unfold result. by rewrite aq_make_blank. }
  assert (Hlogs' : Forall (fun e => is_log e = true)
    [Log DEBUG "Attempting to make templates for %s" [hostname]])
    by (by repeat constructor).
  pose proof (aq_make_performs cfg hostname aq_details Hb) as Hk.
  rewrite (performs_requests _ _ _ _ _ _ Hk Hlogs'),
    (performs_ticket_checks _ _ _ _ _ _ Hk Hlogs'),
    (performs_result _ _ _ _ _ _ Hk).
  intros Hres2. apply setup_requests_returns in Hres2 as [Hst2 H2].
  split; [done|].
  apply Z.eqb_neq in Hst1 as Hst1', Hst2 as Hst2'. rewrite Hst1', Hst2'.
  do 4 eexists. repeat split; try done.
Qed.

Lemma set_env_returns_witness :
  result (set_env Sample.cfg Sample.fields (Some "prod") "vm1.example.com" None)
    Sample.good [] = Ret tt
  /\ all_space "vm1.example.com" = false
  /\ length (ticket_checks
               (events (set_env Sample.cfg Sample.fields (Some "prod")
                          "vm1.example.com" None) Sample.good [])) = 2%nat.
Proof.
  assert (Hret : result (set_env Sample.cfg Sample.fields (Some "prod")
                           "vm1.example.com" None) Sample.good [] = Ret tt)
    by reflexivity.
  split; [exact Hret|].
  destruct (set_env_returns Sample.cfg Sample.fields (Some "prod")
              "vm1.example.com" None Sample.good [] Hret)
    as (Hb & st1 & st2 & r1 & r2 & Hchecks & _).
  split; [exact Hb|]. by rewrite Hchecks.
Defined.
